(** * class_generator: the generation engine of [src/gen_class.py]

    A shallow embedding of [GenClass]: the Python string primitives it
    relies on ([split], [join], [strip], [capitalize], [replace]), the
    [pydash.get] look-ups, the parameter parser, the class and test
    renderers, and the writes they perform on the output tree.

    Text is modelled by [string] over 7-bit ASCII: the case maps and
    the white-space class below are Python's restricted to code points
    under 128.  A Python [dict] is an association list in insertion
    order; exceptions are the [Raise] branch of [result]. *)

From Stdlib Require Import String Ascii List Bool Arith Lia.
Import ListNotations.
Local Open Scope list_scope.
Local Open Scope string_scope.

(* ================================================================= *)
(** ** Python string primitives *)

Module Py.

(** [chr(c).isupper()] and [chr(c).islower()] on ASCII. *)
Definition is_upper (c : ascii) : bool :=
  let n := nat_of_ascii c in (65 <=? n)%nat && (n <=? 90)%nat.

Definition is_lower (c : ascii) : bool :=
  let n := nat_of_ascii c in (97 <=? n)%nat && (n <=? 122)%nat.

Definition upper (c : ascii) : ascii :=
  if is_lower c then ascii_of_nat (nat_of_ascii c - 32) else c.

Definition lower (c : ascii) : ascii :=
  if is_upper c then ascii_of_nat (nat_of_ascii c + 32) else c.

Fixpoint lower_str (s : string) : string :=
  match s with
  | EmptyString => EmptyString
  | String c s' => String (lower c) (lower_str s')
  end.

(** [str.capitalize()]: the first character upper-cased, {e all the
    others lower-cased}. *)
Definition capitalize (s : string) : string :=
  match s with
  | EmptyString => EmptyString
  | String c s' => String (upper c) (lower_str s')
  end.

(** [str.isspace()] on one ASCII character: TAB, LF, VT, FF, CR, the
    four separators FS, GS, RS, US, and the space. *)
Definition is_space (c : ascii) : bool :=
  let n := nat_of_ascii c in
  ((9 <=? n)%nat && (n <=? 13)%nat) || ((28 <=? n)%nat && (n <=? 32)%nat).

Fixpoint lstrip (s : string) : string :=
  match s with
  | EmptyString => EmptyString
  | String c s' => if is_space c then lstrip s' else s
  end.

Fixpoint rstrip (s : string) : string :=
  match s with
  | EmptyString => EmptyString
  | String c s' =>
      match rstrip s' with
      | EmptyString => if is_space c then EmptyString else String c EmptyString
      | r => String c r
      end
  end.

(** [s.strip()] *)
Definition strip (s : string) : string := rstrip (lstrip s).

(** [s.split(sep)] for a one-character separator: never the empty list. *)
Fixpoint split (sep : ascii) (s : string) : list string :=
  match s with
  | EmptyString => [EmptyString]
  | String c s' =>
      if Ascii.eqb c sep then EmptyString :: split sep s'
      else match split sep s' with
           | [] => [String c EmptyString]
           | h :: t => String c h :: t
           end
  end.

(** [sep.join(l)] *)
Fixpoint join (sep : string) (l : list string) : string :=
  match l with
  | [] => EmptyString
  | [x] => x
  | x :: xs => x ++ sep ++ join sep xs
  end.

(** [s * n] *)
Fixpoint repeat_str (s : string) (n : nat) : string :=
  match n with
  | 0 => EmptyString
  | S k => s ++ repeat_str s k
  end.

(** [s.replace(old, new)] for a non-empty [old] (every call site passes a
    literal placeholder): scan left to right, replacing each occurrence
    and resuming after it.  [skip] counts the characters of a replaced
    occurrence still to be passed over. *)
Fixpoint replace_from (old new : string) (skip : nat) (s : string) : string :=
  match s with
  | EmptyString => EmptyString
  | String c s' =>
      match skip with
      | S k => replace_from old new k s'
      | 0 =>
          if prefix old s
          then new ++ replace_from old new (String.length old - 1) s'
          else String c (replace_from old new 0 s')
      end
  end.

Definition replace (old new s : string) : string := replace_from old new 0 s.

(** [needle in s] *)
Fixpoint contains (needle s : string) : bool :=
  prefix needle s ||
  match s with
  | EmptyString => false
  | String _ s' => contains needle s'
  end.

(** [c in s] for one character. *)
Fixpoint has_char (c : ascii) (s : string) : bool :=
  match s with
  | EmptyString => false
  | String d s' => Ascii.eqb d c || has_char c s'
  end.

(** [s.partition(c)[0]]: what stands before the first [c] of [s]; all of
    [s] when there is none. *)
Fixpoint before (c : ascii) (s : string) : string :=
  match s with
  | EmptyString => EmptyString
  | String d s' => if Ascii.eqb d c then EmptyString else String d (before c s')
  end.

(** [s.partition(c)[2]] when [c] occurs in [s]: what stands after the
    first [c]. *)
Fixpoint after (c : ascii) (s : string) : option string :=
  match s with
  | EmptyString => None
  | String d s' => if Ascii.eqb d c then Some s' else after c s'
  end.

(** [l[:stop]] for a negative [stop = -k]: all but the last [k] items. *)
Definition slice_drop_last {A} (k : nat) (l : list A) : list A :=
  firstn (List.length l - k) l.

End Py.

(* ================================================================= *)
(** ** pydash.get *)

Module Pydash.

(** [get(l, i)] on a list: the item, or [None]. *)
Definition get_index {A} (l : list A) (i : nat) : option A := nth_error l i.

End Pydash.

(* ================================================================= *)
(** ** Dictionaries, exceptions, files *)

(** A [dict]: keys in insertion order; assigning to a key that is
    present keeps its place and overwrites its value. *)
Module Dict.

Definition t (V : Type) : Type := list (string * V).

Fixpoint get {V} (k : string) (d : t V) : option V :=
  match d with
  | [] => None
  | (k', v) :: d' => if String.eqb k' k then Some v else get k d'
  end.

Fixpoint set {V} (k : string) (v : V) (d : t V) : t V :=
  match d with
  | [] => [(k, v)]
  | (k', v') :: d' =>
      if String.eqb k' k then (k', v) :: d' else (k', v') :: set k v d'
  end.

End Dict.

Inductive exn : Type :=
| AttributeError      (* an attribute of [None] was requested *)
| FileNotFoundError (path : string).

Inductive result (A : Type) : Type :=
| Ok (a : A)
| Raise (e : exn).
Arguments Ok {A} a.
Arguments Raise {A} e.

Definition rbind {A B} (m : result A) (f : A -> result B) : result B :=
  match m with
  | Ok a => f a
  | Raise e => Raise e
  end.

(** The value of an expression that may be [None], used where the
    program calls a [str] method on it. *)
Definition deref {A} (o : option A) : result A :=
  match o with
  | Some a => Ok a
  | None => Raise AttributeError
  end.

Fixpoint rmap {A B} (f : A -> result B) (l : list A) : result (list B) :=
  match l with
  | [] => Ok []
  | x :: xs =>
      rbind (f x) (fun y => rbind (rmap f xs) (fun ys => Ok (y :: ys)))
  end.

(** The output tree: path to content.  [open(path, "w")] truncates,
    [file.write] appends.  A raised exception leaves the writes made
    so far in place. *)
Module Fs.

Definition t : Type := Dict.t string.

Definition content (path : string) (fs : t) : string :=
  match Dict.get path fs with
  | Some s => s
  | None => EmptyString
  end.

Definition open_w (path : string) (fs : t) : t := Dict.set path EmptyString fs.

Definition write (path text : string) (fs : t) : t :=
  Dict.set path (content path fs ++ text) fs.

End Fs.

Definition IO (A : Type) : Type := Fs.t -> Fs.t * result A.

Definition ret {A} (a : A) : IO A := fun fs => (fs, Ok a).

Definition bind {A B} (m : IO A) (f : A -> IO B) : IO B :=
  fun fs =>
    match m fs with
    | (fs', Ok a) => f a fs'
    | (fs', Raise e) => (fs', Raise e)
    end.

Definition lift {A} (r : result A) : IO A := fun fs => (fs, r).

Definition effect (f : Fs.t -> Fs.t) : IO unit := fun fs => (f fs, Ok tt).

(** [for x in l: body(x)] *)
Fixpoint for_each {A} (l : list A) (body : A -> IO unit) : IO unit :=
  match l with
  | [] => ret tt
  | x :: xs => bind (body x) (fun _ => for_each xs body)
  end.

Declare Scope py_scope.
Delimit Scope py_scope with py.
Notation "x <- m ;; k" := (rbind m (fun x => k))
  (at level 61, m at next level, right associativity) : py_scope.
Notation "' p <- m ;; k" := (rbind m (fun p => k))
  (at level 61, p pattern, m at next level, right associativity) : py_scope.

Declare Scope io_scope.
Delimit Scope io_scope with io.
Notation "x <- m ;; k" := (bind m (fun x => k))
  (at level 61, m at next level, right associativity) : io_scope.
Notation "m ;; k" := (bind m (fun _ => k))
  (at level 61, right associativity) : io_scope.

(* ================================================================= *)
(** ** GenClass *)

Module GenClass.

Import Py.
Local Open Scope py_scope.

Definition PATH_TEMPLATES : string := "src/templates".
Definition PATH_GEN_FILES : string := "./gen_files".

(** The line feed of the source's ["\n"]. *)
Definition nl : string := String "010"%char EmptyString.

(** The pickled templates under [PATH_TEMPLATES]: path to the string
    [pickle.load] returns.  They are read, never written: every file
    the generator writes ends in [.py], no template path does. *)
Definition TemplateStore : Type := Dict.t string.

Record GenClass : Type := {
  _name_file : string;
  _attributes : Dict.t string;
  _methods : Dict.t string;
  _inherit : string;
  _name_class : string
}.

(** [open(f"{PATH_TEMPLATES}/{name}", "rb")] then [pickle.load]. *)
Definition load_template (tpl : TemplateStore) (name : string) : result string :=
  let path := PATH_TEMPLATES ++ "/" ++ name in
  match Dict.get path tpl with
  | Some s => Ok s
  | None => Raise (FileNotFoundError path)
  end.

Definition _set_tab (nb_tab spaces_by_tab : nat) : string :=
  repeat_str (repeat_str " " spaces_by_tab) nb_tab.

(** [self._set_tab(n)] with the default of four spaces by tab. *)
Definition tab (nb_tab : nat) : string := _set_tab nb_tab 4.

Definition _get_accessors (tpl : TemplateStore)
    (attribute_name attribute_type : string) : result string :=
  t <- load_template tpl "accessors" ;;
  Ok (replace "{attribute_type}" attribute_type
        (replace "{attribute_name}" attribute_name t)).

Definition _get_attributes_strings (self : GenClass)
    : string * string * string :=
  let desc_attr := "Explain this attr..." in
  let attributes_docstring :=
    join nl (map (fun '(attr_name, attr_type) =>
                    tab 3 ++ attr_name ++ " (" ++ attr_type ++ "): " ++ desc_attr)
                 (_attributes self)) in
  let attributes_params :=
    join "" (map (fun '(attr_name, attr_type) =>
                    "," ++ nl ++ tab 2 ++ attr_name ++ ": " ++ attr_type)
                 (_attributes self)) in
  let attributes_init :=
    join nl (map (fun '(attr_name, attr_type) =>
                    tab 2 ++ "self._" ++ attr_name ++ ": " ++ attr_type
                      ++ " = " ++ attr_name)
                 (_attributes self)) in
  (attributes_docstring, attributes_params, attributes_init).

Definition _get_class (tpl : TemplateStore) (self : GenClass) : result string :=
  let '(attributes_docstring, attributes_params, attributes_init) :=
    _get_attributes_strings self in
  t <- load_template tpl "class" ;;
  Ok (replace "{attributes_init}" attributes_init
        (replace "{attributes_docstring}" attributes_docstring
           (replace "{attributes_params}" attributes_params
              (replace "{class_name}" (_name_class self) t)))).

(** One turn of the loop of [_get_methods_dictionary]: the name, the
    type and the default of one token. *)
Definition parse_param (param : string)
    : result (string * (string * option string)) :=
  let param_split_name_type := split ":" param in
  field1 <- deref (Pydash.get_index param_split_name_type 1) ;;
  let param_split_type_default_value := split "=" field1 in
  name0 <- deref (Pydash.get_index param_split_name_type 0) ;;
  let param_name := strip name0 in
  type0 <- deref (Pydash.get_index param_split_type_default_value 0) ;;
  let param_type := strip type0 in
  let param_default_value := Pydash.get_index param_split_type_default_value 1 in
  let param_default_value :=
    match param_default_value with
    | Some v => if String.eqb v "" then Some v else Some (strip v)
    | None => None
    end in
  Ok (param_name, (param_type, param_default_value)).

Fixpoint fill_params (params : Dict.t (string * option string))
    (method_params : list string) : result (Dict.t (string * option string)) :=
  match method_params with
  | [] => Ok params
  | param :: rest =>
      '(param_name, v) <- parse_param param ;;
      fill_params (Dict.set param_name v params) rest
  end.

Definition _get_methods_dictionary (method_params : list string)
    : result (Dict.t (string * option string)) :=
  fill_params [] method_params.

(** [get(params, "return.0", "None")] *)
Definition get_return_0 (params : Dict.t (string * option string)) : string :=
  match Dict.get "return" params with
  | Some v => fst v
  | None => "None"
  end.

Definition _get_methods_strings (method_params : list string)
    : result (string * string * string * string) :=
  let msg_desc := "Explain this..." in
  params <- _get_methods_dictionary method_params ;;
  let return_type := get_return_0 params in
  let returns_string :=
    if negb (String.eqb return_type "None")
    then (nl ++ nl ++ tab 2 ++ "Returns:" ++ nl)
           ++ (tab 3 ++ return_type ++ ": " ++ msg_desc)
    else "" in
  let params_docstring :=
    join (nl ++ tab 3)
      (map (fun '(k, v) => k ++ " (" ++ fst v ++ "): " ++ msg_desc)
         (filter (fun '(k, _) => negb (String.eqb k "return")) params)) in
  let method_params_list :=
    join ("," ++ nl ++ tab 2)
      (map strip (slice_drop_last 1 method_params)) in
  Ok (method_params_list, return_type, params_docstring, returns_string).

Definition _get_method (tpl : TemplateStore)
    (method_name : string) (method_params : list string) : result string :=
  '(method_params_list, return_type, params_docstring, returns_string) <-
    _get_methods_strings method_params ;;
  t <- load_template tpl "methods" ;;
  Ok (replace "{returns_string}" returns_string
        (replace "{params_docstring}" params_docstring
           (replace "{return_type}" return_type
              (replace "{method_params}" method_params_list
                 (replace "{method_name}" method_name t))))).

Definition _create_folder_and_init_file (path_folder : string) : IO unit :=
  let file := path_folder ++ "/__init__.py" in
  (effect (Fs.open_w file) ;; effect (Fs.write file ""))%io.

Definition _gen_class (tpl : TemplateStore) (self : GenClass) : IO unit :=
  (_create_folder_and_init_file PATH_GEN_FILES ;;
   let file := PATH_GEN_FILES ++ "/" ++ _name_file self ++ ".py" in
   effect (Fs.open_w file) ;;
   text <- lift (_get_class tpl self) ;;
   effect (Fs.write file text) ;;
   for_each (_attributes self) (fun '(attr_name, attr_type) =>
     accesseur <- lift (_get_accessors tpl attr_name attr_type) ;;
     effect (Fs.write file accesseur)) ;;
   for_each (_methods self) (fun '(method_name, method_params) =>
     method <- lift (_get_method tpl method_name (split "," method_params)) ;;
     effect (Fs.write file method)))%io.

Definition _get_method_tests (tpl : TemplateStore) (self : GenClass)
    (method_name method_params : string) : result string :=
  names <- rmap (fun param => deref (Pydash.get_index (split ":" param) 0))
             (slice_drop_last 1 (split "," method_params)) ;;
  let params := join ("," ++ nl ++ tab 2 ++ "#" ++ tab 1) names in
  t <- load_template tpl "methods_tests" ;;
  Ok (replace "{params}" params
        (replace "{class_name}" (_name_class self)
           (replace "{class_file}" (_name_file self)
              (replace "{method_name}" method_name t)))).

Definition _get_class_tests (tpl : TemplateStore) (self : GenClass)
    (methods_for_tests : string) : result string :=
  t <- load_template tpl "tests" ;;
  Ok (replace "{file_name}" (_name_file self)
        (replace "{methods_for_tests}" methods_for_tests
           (replace "{class_name}" (_name_class self) t))).

Definition _gen_unit_tests (tpl : TemplateStore) (self : GenClass) : IO unit :=
  let path_tests := PATH_GEN_FILES ++ "/tests_unittest" in
  let path_assets := path_tests ++ "/assets" in
  let path_file_class_tests :=
    path_tests ++ "/test_" ++ _name_file self ++ ".py" in
  (_create_folder_and_init_file path_tests ;;
   _create_folder_and_init_file path_assets ;;
   effect (Fs.open_w path_file_class_tests) ;;
   stubs <- lift (rmap (fun '(method_name, method_params) =>
                          _get_method_tests tpl self method_name method_params)
                    (_methods self)) ;;
   let result_methods := join "" stubs in
   text <- lift (_get_class_tests tpl self result_methods) ;;
   effect (Fs.write path_file_class_tests text))%io.

(** The assignments of [__init__]. *)
Definition make (name_file : string) (attributes methods : Dict.t string)
    (inherit : string) : GenClass :=
  {| _name_file := name_file;
     _attributes := attributes;
     _methods := methods;
     _inherit := if String.eqb inherit "" then ":" else "(" ++ inherit ++ "):";
     _name_class := join "" (map capitalize (split "_" name_file)) |}.

(** [GenClass(name_file, attributes, methods, inherit)] *)
Definition __init__ (tpl : TemplateStore) (name_file : string)
    (attributes methods : Dict.t string) (inherit : string) : IO unit :=
  let self := make name_file attributes methods inherit in
  (_gen_class tpl self ;; _gen_unit_tests tpl self)%io.

End GenClass.

(* ================================================================= *)
(** ** The documented behaviour, for comparison *)

Module Documented.

Import Py.

(** Upper-case the first character and leave the others as they are. *)
Definition cap_first (s : string) : string :=
  match s with
  | EmptyString => EmptyString
  | String c s' => String (upper c) s'
  end.

(** Namer as documented: split on ['_'], capitalize only the first
    character of each segment, concatenate. *)
Definition derive_class_name (file_stem : string) : string :=
  join "" (map cap_first (split "_" file_stem)).

(** ParameterParser as documented: the token is cut at its first [':'],
    the rest at its first ['='], and the three parts are trimmed. *)
Definition parse_token (token : string)
    : result (string * (string * option string)) :=
  match after ":" token with
  | None => Raise AttributeError
  | Some rest =>
      Ok (strip (before ":" token),
          (strip (before "=" rest), option_map strip (after "=" rest)))
  end.

(** The return type as documented: the type of the reserved final entry
    of the list, [None] when there is no such descriptor. *)
Definition return_type (tokens : list string) : string :=
  match tokens with
  | [] => "None"
  | _ :: _ =>
      match parse_token (last tokens "") with
      | Ok (_, (type, _)) => type
      | Raise _ => "None"
      end
  end.

(** The name of a token as the parser derives it. *)
Definition param_name (token : string) : string := strip (before ":" token).

End Documented.

(** A one-pass reading of the class name: underscores are dropped, the
    character that opens a segment is upper-cased, every other one is
    lower-cased. *)
Fixpoint scan_name (at_start : bool) (s : string) : string :=
  match s with
  | EmptyString => EmptyString
  | String c s' =>
      if Ascii.eqb c "_" then scan_name true s'
      else String (if at_start then Py.upper c else Py.lower c)
                  (scan_name false s')
  end.

(** Every character of [s] satisfies [p]. *)
Fixpoint all_chars (p : ascii -> bool) (s : string) : bool :=
  match s with
  | EmptyString => true
  | String c s' => p c && all_chars p s'
  end.

(** The dictionary after assigning the pairs of [ps], in order. *)
Definition assign_all {V} (ps : list (string * V)) (d : Dict.t V) : Dict.t V :=
  fold_left (fun d p => Dict.set (fst p) (snd p) d) ps d.

(** The separators of the signature and of the documented lines. *)
Definition sig_sep : string := "," ++ GenClass.nl ++ GenClass.tab 2.
Definition doc_sep : string := GenClass.nl ++ GenClass.tab 3.

(** The documented line of one parsed parameter. *)
Definition doc_line : string * (string * option string) -> string :=
  fun '(k, v) => k ++ " (" ++ fst v ++ "): " ++ "Explain this...".

(** The method block: the five substitutions into a loaded template. *)
Definition method_block (t method_name method_params return_type
    params_docstring returns_string : string) : string :=
  Py.replace "{returns_string}" returns_string
    (Py.replace "{params_docstring}" params_docstring
       (Py.replace "{return_type}" return_type
          (Py.replace "{method_params}" method_params
             (Py.replace "{method_name}" method_name t)))).

(** The last pair of [ps] whose key is [k]. *)
Definition last_named {V} (k : string) (ps : list (string * V))
    : option (string * V) :=
  find (fun p => String.eqb (fst p) k) (rev ps).

(** The class text of a request, when every stage of its rendering
    succeeds: header, accessor blocks, method blocks. *)
Definition class_text (tpl : GenClass.TemplateStore) (self : GenClass.GenClass)
    : result string :=
  (header <- GenClass._get_class tpl self ;;
   accessors <- rmap (fun '(attr_name, attr_type) =>
                        GenClass._get_accessors tpl attr_name attr_type)
                  (GenClass._attributes self) ;;
   methods <- rmap (fun '(method_name, method_params) =>
                      GenClass._get_method tpl method_name
                        (Py.split "," method_params))
                (GenClass._methods self) ;;
   Ok (header ++ Py.join "" accessors ++ Py.join "" methods))%py.

(** The test text of a request, when every stage succeeds. *)
Definition test_text (tpl : GenClass.TemplateStore) (self : GenClass.GenClass)
    : result string :=
  (stubs <- rmap (fun '(method_name, method_params) =>
                    GenClass._get_method_tests tpl self method_name method_params)
              (GenClass._methods self) ;;
   GenClass._get_class_tests tpl self (Py.join "" stubs))%py.

(** The blocks computed before the first failure of [f] along [l]. *)
Fixpoint computed_before_failure {A} (f : A -> result string) (l : list A)
    : list string :=
  match l with
  | [] => []
  | x :: xs =>
      match f x with
      | Ok y => y :: computed_before_failure f xs
      | Raise _ => []
      end
  end.

Definition class_file (self : GenClass.GenClass) : string :=
  GenClass.PATH_GEN_FILES ++ "/" ++ GenClass._name_file self ++ ".py".

Definition test_file (self : GenClass.GenClass) : string :=
  (GenClass.PATH_GEN_FILES ++ "/tests_unittest")
    ++ "/test_" ++ GenClass._name_file self ++ ".py".


(** The templates a request reads: [class] and [tests] always,
    [accessors] when there is an attribute, [methods] and [methods_tests]
    when there is a method. *)
Definition template_used (attrs methods : Dict.t string) (name : string) : Prop :=
  name = "class" \/ name = "tests" \/
  (name = "accessors" /\ attrs <> []) \/
  (name = "methods" /\ methods <> []) \/
  (name = "methods_tests" /\ methods <> []).

(** ** Templates as literal text and placeholder tokens *)

Inductive piece : Type :=
| Lit (text : string)
| Hole (token_name : string).

Definition piece_text (p : piece) : string :=
  match p with
  | Lit s => s
  | Hole n => "{" ++ n ++ "}"
  end.

Fixpoint flatten (ps : list piece) : string :=
  match ps with
  | [] => EmptyString
  | p :: ps' => piece_text p ++ flatten ps'
  end.

(** No opening brace in [s]. *)
Definition clean (s : string) : bool :=
  all_chars (fun c => negb (Ascii.eqb c "{")) s.

(** No brace at all in a token name. *)
Definition plain (s : string) : bool :=
  all_chars (fun c => negb (Ascii.eqb c "{") && negb (Ascii.eqb c "}")) s.

(** A template that holds only the tokens of [allowed]: its literal text
    has no opening brace, its tokens are among [allowed]. *)
Definition only_tokens (allowed : list string) (ps : list piece) : Prop :=
  Forall (fun p => match p with
                   | Lit s => clean s = true
                   | Hole n => In n allowed
                   end) ps.

(** The token [name] filled with [v]. *)
Definition fill (name v : string) (ps : list piece) : list piece :=
  map (fun p => match p with
                | Hole n => if String.eqb n name then Lit v else p
                | Lit _ => p
                end) ps.

(** Substitutions in the order the renderers chain them. *)
Definition replace_chain (subs : list (string * string)) (s : string) : string :=
  fold_left (fun s sub => Py.replace ("{" ++ fst sub ++ "}") (snd sub) s) subs s.

Definition class_tokens : list string :=
  ["class_name"; "attributes_params"; "attributes_docstring"; "attributes_init"].
Definition accessors_tokens : list string :=
  ["attribute_name"; "attribute_type"].
Definition methods_tokens : list string :=
  ["method_name"; "method_params"; "return_type"; "params_docstring";
   "returns_string"].
Definition methods_tests_tokens : list string :=
  ["method_name"; "class_file"; "class_name"; "params"].
Definition tests_tokens : list string :=
  ["class_name"; "methods_for_tests"; "file_name"].

(** The template [name] of the store holds only the tokens of [allowed]. *)
Definition holds_only (tpl : GenClass.TemplateStore) (name : string)
    (allowed : list string) : Prop :=
  exists ps, GenClass.load_template tpl name = Ok (flatten ps) /\
             only_tokens allowed ps.

(** A store whose five templates hold only the tokens enumerated for them. *)
Definition enumerated_tokens_only (tpl : GenClass.TemplateStore) : Prop :=
  holds_only tpl "class" class_tokens /\
  holds_only tpl "accessors" accessors_tokens /\
  holds_only tpl "methods" methods_tokens /\
  holds_only tpl "methods_tests" methods_tests_tokens /\
  holds_only tpl "tests" tests_tokens.

(** A request whose stem, attribute names and types, method names and
    parameter lists hold no opening brace. *)
Definition clean_request (name : string) (attrs methods : Dict.t string) : Prop :=
  clean name = true /\
  Forall (fun a => clean (fst a) = true /\ clean (snd a) = true) attrs /\
  Forall (fun m => clean (fst m) = true /\ clean (snd m) = true) methods.

(** A small template set and a request, for the worked examples. *)
Module Sample.

Import GenClass.

Definition class_pieces : list piece :=
  [ Lit "class "; Hole "class_name";
    Lit (":" ++ nl ++ "    def __init__(self"); Hole "attributes_params";
    Lit ("):" ++ nl ++ "        # Args:" ++ nl); Hole "attributes_docstring";
    Lit nl; Hole "attributes_init"; Lit nl ].

Definition accessors_pieces : list piece :=
  [ Lit "    def "; Hole "attribute_name"; Lit "(self) -> ";
    Hole "attribute_type"; Lit (":" ++ nl ++ "        return self._");
    Hole "attribute_name"; Lit nl ].

Definition methods_pieces : list piece :=
  [ Lit "    def "; Hole "method_name"; Lit "(self, "; Hole "method_params";
    Lit ") -> "; Hole "return_type"; Lit (":" ++ nl ++ "        # Args: ");
    Hole "params_docstring"; Hole "returns_string"; Lit nl ].

Definition methods_tests_pieces : list piece :=
  [ Lit "    def test_"; Hole "method_name";
    Lit ("(self):" ++ nl ++ "        # "); Hole "class_file"; Lit ".";
    Hole "class_name"; Lit (nl ++ "        #    "); Hole "params"; Lit nl ].

Definition tests_pieces : list piece :=
  [ Lit "from "; Hole "file_name"; Lit " import "; Hole "class_name";
    Lit (nl ++ "class Test"); Hole "class_name"; Lit (":" ++ nl);
    Hole "methods_for_tests" ].

Definition templates : TemplateStore :=
  [ ("src/templates/class", flatten class_pieces);
    ("src/templates/accessors", flatten accessors_pieces);
    ("src/templates/methods", flatten methods_pieces);
    ("src/templates/methods_tests", flatten methods_tests_pieces);
    ("src/templates/tests", flatten tests_pieces) ].

(** Attributes [x, y], methods [area, perimeter]. *)
Definition shape : GenClass :=
  make "shape" [("x", "int"); ("y", "int")]
    [("area", "scale: float = 1, return: float"); ("perimeter", "return: float")]
    "".

(** A request whose attribute type is the text of a token. *)
Definition braced : GenClass :=
  make "shape" [("x", "{class_name}")] [] "".

(** A template that shows the [{params}] of a test stub and nothing else. *)
Definition params_only : TemplateStore :=
  [ ("src/templates/methods_tests", "{params}") ].

End Sample.

(* ================================================================= *)
(** ** The driver of [main.py] *)

Module Main.

(** One configuration entry as the driver passes it to [GenClass]: the
    [name_file] of its [class_config] section, its [attributes] section
    and its [methods] section.  Listing the directory and reading the
    files is left to the caller of this model. *)
Definition entry : Type := string * Dict.t string * Dict.t string.

(** The body of the [try]: one [GenClass] per entry, the base class left
    to its default. *)
Definition process (tpl : GenClass.TemplateStore) (configs : list entry)
    : IO unit :=
  for_each configs (fun '(name_file, attributes, methods) =>
    GenClass.__init__ tpl name_file attributes methods "").

(** The [try ... except Exception as err: print(...)]: the files left
    and the exception reported, if any. *)
Definition main (tpl : GenClass.TemplateStore) (configs : list entry)
    (fs : Fs.t) : Fs.t * option exn :=
  match process tpl configs fs with
  | (fs', Ok _) => (fs', None)
  | (fs', Raise e) => (fs', Some e)
  end.

End Main.

(** ** Auxiliary notions for the further properties *)

(** The number of [c] in [s]. *)
Fixpoint count_char (c : ascii) (s : string) : nat :=
  match s with
  | EmptyString => 0
  | String d s' => (if Ascii.eqb d c then 1 else 0) + count_char c s'
  end.

(** What [_gen_class] has written to the class file when it returns or
    raises: the header, the accessor blocks computed before the first
    failure and, when no accessor failed, the method blocks computed
    before the first failure. *)
Definition class_written (tpl : GenClass.TemplateStore)
    (self : GenClass.GenClass) : string :=
  let accf := fun '(attr_name, attr_type) =>
                GenClass._get_accessors tpl attr_name attr_type in
  let metf := fun '(method_name, method_params) =>
                GenClass._get_method tpl method_name
                  (Py.split "," method_params) in
  match GenClass._get_class tpl self with
  | Raise _ => EmptyString
  | Ok header =>
      header
      ++ Py.join "" (computed_before_failure accf (GenClass._attributes self))
      ++ match rmap accf (GenClass._attributes self) with
         | Ok _ =>
             Py.join "" (computed_before_failure metf (GenClass._methods self))
         | Raise _ => EmptyString
         end
  end.

(** The pieces of a template after the substitutions of [subs], in order. *)
Definition fill_chain (subs : list (string * string)) (ps : list piece)
    : list piece :=
  fold_left (fun ps sub => fill (fst sub) (snd sub) ps) subs ps.

(** A parsed parameter in the form the dictionary holds it: name, type and
    default trimmed, no [':'] in the name, no [':'] and no ['='] in the
    type and in the default. *)
Definition tidy_entry (p : string * (string * option string)) : Prop :=
  Py.strip (fst p) = fst p /\ Py.has_char ":" (fst p) = false /\
  Py.strip (fst (snd p)) = fst (snd p) /\
  Py.has_char ":" (fst (snd p)) = false /\
  Py.has_char "=" (fst (snd p)) = false /\
  forall v, snd (snd p) = Some v ->
    Py.strip v = v /\ Py.has_char ":" v = false /\ Py.has_char "=" v = false.

(** [s] is empty or opens with a character that is not white space. *)
Definition starts_clear (s : string) : bool :=
  match s with
  | EmptyString => true
  | String c _ => negb (Py.is_space c)
  end.

(* ================================================================= *)
(** ** Facts on the string primitives *)

Section PyFacts.

Import Py.

Lemma append_empty_r (s : string) : s ++ "" = s.
Proof. induction s; simpl; congruence. Qed.

Lemma append_assoc (a b c : string) : (a ++ b) ++ c = a ++ b ++ c.
Proof. induction a; simpl; congruence. Qed.

Lemma split_not_nil (c : ascii) (s : string) : split c s <> [].
Proof.
  induction s as [|d s IH]; simpl; [discriminate|].
  destruct (Ascii.eqb d c); [discriminate|].
  destruct (split c s); discriminate.
Qed.

Lemma split_length_pos (c : ascii) (s : string) : 1 <= List.length (split c s).
Proof.
  pose proof (split_not_nil c s) as H.
  destruct (split c s); [congruence | simpl; lia].
Qed.

(** [split] cuts at the first separator and goes on with the rest. *)
Lemma split_before_after (c : ascii) (s : string) :
  split c s =
  Py.before c s ::
    match Py.after c s with
    | Some r => split c r
    | None => []
    end.
Proof.
  induction s as [|d s IH]; simpl; [reflexivity|].
  destruct (Ascii.eqb d c); [reflexivity|].
  rewrite IH. reflexivity.
Qed.

Lemma join_empty_cons (x : string) (xs : list string) :
  join "" (x :: xs) = x ++ join "" xs.
Proof.
  destruct xs as [|y ys]; simpl; [now rewrite append_empty_r | reflexivity].
Qed.

Lemma all_chars_app (p : ascii -> bool) (a b : string) :
  all_chars p (a ++ b) = all_chars p a && all_chars p b.
Proof.
  induction a as [|c a IH]; simpl; [reflexivity|].
  now rewrite IH, andb_assoc.
Qed.

Lemma all_chars_split (p : ascii -> bool) (c : ascii) (s : string) :
  all_chars p s = true ->
  Forall (fun x => all_chars p x = true) (split c s).
Proof.
  induction s as [|d s IH]; simpl; intros H.
  - repeat constructor.
  - apply andb_true_iff in H as [Hd Hs]. specialize (IH Hs).
    destruct (Ascii.eqb d c).
    + constructor; [reflexivity | exact IH].
    + destruct (split c s) as [|h t].
      * repeat constructor. simpl. now rewrite Hd.
      * inversion IH; subst. constructor; [simpl; now rewrite Hd | assumption].
Qed.

End PyFacts.

(* ================================================================= *)
(** ** Namer *)

Section Namer.

Import Py.

Lemma lower_str_fixed (s : string) :
  all_chars (fun c => negb (is_upper c)) s = true -> lower_str s = s.
Proof.
  induction s as [|c s IH]; simpl; [reflexivity|].
  intros H. apply andb_true_iff in H as [Hc Hs].
  unfold lower. apply negb_true_iff in Hc. rewrite Hc.
  now rewrite IH.
Qed.

Lemma capitalize_cap_first (s : string) :
  all_chars (fun c => negb (is_upper c)) s = true ->
  capitalize s = Documented.cap_first s.
Proof.
  destruct s as [|c s]; simpl; [reflexivity|].
  intros H. apply andb_true_iff in H as [_ Hs].
  now rewrite lower_str_fixed.
Qed.

(** The segment-wise computation and the one-pass reading agree, at a
    segment start and inside a segment. *)
Lemma capitalize_segments_scan (s : string) :
  join "" (map capitalize (split "_" s)) = scan_name true s /\
  match split "_" s with
  | h :: t => lower_str h ++ join "" (map capitalize t) = scan_name false s
  | [] => True
  end.
Proof.
  induction s as [|c s [IH1 IH2]].
  - split; reflexivity.
  - cbn [split scan_name]. destruct (Ascii.eqb c "_").
    + split.
      * cbn [map]. rewrite join_empty_cons. exact IH1.
      * exact IH1.
    + destruct (split "_" s) as [|h t] eqn:E.
      * now destruct (split_not_nil "_" s).
      * split.
        -- cbn [map]. rewrite join_empty_cons. cbn [capitalize].
           simpl. now rewrite IH2.
        -- simpl. now rewrite IH2.
Qed.

Lemma scan_name_underscores (b : bool) (s : string) :
  all_chars (fun c => Ascii.eqb c "_") s = true -> scan_name b s = "".
Proof.
  revert b. induction s as [|c s IH]; intros b; simpl; [reflexivity|].
  intros H. apply andb_true_iff in H as [Hc Hs].
  rewrite Hc. now apply IH.
Qed.

End Namer.

(** C1, as amended: the class name of a stem is the stem read once from
    left to right, underscores dropped, the opening character of each
    segment upper-cased and every other character lower-cased.  On a stem
    without upper-case letters that is the documented derivation (first
    character of each segment capitalized, the others untouched); the
    empty stem and the stems made of underscores give the empty name. *)
Theorem name_class_derivation
    (stem : string) (attrs methods : Dict.t string) (inherit : string) :
  let name := GenClass._name_class (GenClass.make stem attrs methods inherit) in
  name = scan_name true stem /\
  (all_chars (fun c => negb (Py.is_upper c)) stem = true ->
   name = Documented.derive_class_name stem) /\
  (stem = "" -> name = "") /\
  (all_chars (fun c => Ascii.eqb c "_") stem = true -> name = "").
Proof.
  cbn zeta. unfold GenClass.make; cbn [GenClass._name_class].
  destruct (capitalize_segments_scan stem) as [Hscan _].
  repeat split.
  - exact Hscan.
  - intros Hlow. unfold Documented.derive_class_name. f_equal.
    apply map_ext_in. intros seg Hin.
    apply capitalize_cap_first.
    pose proof (all_chars_split _ "_" stem Hlow) as HF.
    rewrite Forall_forall in HF. now apply HF.
  - intros ->. reflexivity.
  - intros Hund. rewrite Hscan. now apply scan_name_underscores.
Qed.

Lemma name_class_derivation_witness :
  all_chars (fun c => negb (Py.is_upper c)) "point_3d" = true /\
  GenClass._name_class (GenClass.make "point_3d" [] [] "") = "Point3d" /\
  all_chars (fun c => Ascii.eqb c "_") "__" = true /\
  GenClass._name_class (GenClass.make "__" [] [] "") = "".
Proof.
  split; [reflexivity|]. split.
  - destruct (name_class_derivation "point_3d" [] [] "") as (_ & H & _).
    rewrite (H eq_refl). reflexivity.
  - split; [reflexivity|].
    destruct (name_class_derivation "__" [] [] "") as (_ & _ & _ & H).
    exact (H eq_refl).
Defined.

(** C1 as stated fails on a stem with an upper-case letter after the
    first of a segment: [capitalize] lower-cases it. *)
Lemma name_class_lowers_tail :
  GenClass._name_class (GenClass.make "fooBar" [] [] "") = "Foobar" /\
  Documented.derive_class_name "fooBar" = "FooBar" /\
  GenClass._name_class (GenClass.make "fooBar" [] [] "")
    <> Documented.derive_class_name "fooBar".
Proof.
  split; [reflexivity|]. split; [reflexivity|]. discriminate.
Qed.

Example name_class_foo :
  GenClass._name_class (GenClass.make "foo" [] [] "") = "Foo".
Proof. reflexivity. Qed.

Example name_class_foo_bar :
  GenClass._name_class (GenClass.make "foo_bar" [] [] "") = "FooBar".
Proof. reflexivity. Qed.

(* ================================================================= *)
(** ** ParameterParser *)

Section Parser.

Import Py.

Lemma after_none_has_char (c : ascii) (s : string) :
  Py.after c s = None <-> has_char c s = false.
Proof.
  induction s as [|d s IH]; simpl; [tauto|].
  destruct (Ascii.eqb d c); simpl; [split; discriminate | exact IH].
Qed.

Lemma has_char_after (c : ascii) (s : string) :
  has_char c s = true -> exists r, Py.after c s = Some r.
Proof.
  intros H. destruct (Py.after c s) as [r|] eqn:E; [now exists r|].
  apply after_none_has_char in E. congruence.
Qed.

Lemma split_field_0 (c : ascii) (s : string) :
  Pydash.get_index (split c s) 0 = Some (Py.before c s).
Proof. now rewrite split_before_after. Qed.

Lemma split_field_1 (c : ascii) (s : string) :
  Pydash.get_index (split c s) 1 =
  option_map (Py.before c) (Py.after c s).
Proof.
  rewrite split_before_after. unfold Pydash.get_index. cbn [nth_error].
  destruct (Py.after c s) as [r|]; [|reflexivity].
  now rewrite split_before_after.
Qed.

(** What one turn of the parser's loop computes. *)
Lemma parse_param_eq (token : string) :
  GenClass.parse_param token =
  match Py.after ":" token with
  | None => Raise AttributeError
  | Some rest =>
      let field := Py.before ":" rest in
      Ok (strip (Py.before ":" token),
          (strip (Py.before "=" field),
           option_map (fun d => strip (Py.before "=" d))
                      (Py.after "=" field)))
  end.
Proof.
  unfold GenClass.parse_param.
  rewrite split_field_1, split_field_0.
  destruct (Py.after ":" token) as [rest|]; [|reflexivity].
  cbn [option_map deref rbind].
  rewrite split_field_0, split_field_1. cbn [deref rbind].
  destruct (Py.after "=" (Py.before ":" rest)) as [d|];
    [|reflexivity].
  cbn [option_map].
  destruct (String.eqb_spec (Py.before "=" d) "") as [->|_];
    reflexivity.
Qed.

Lemma parse_param_ok (token : string) :
  has_char ":" token = true ->
  exists p, GenClass.parse_param token = Ok p.
Proof.
  intros H. rewrite parse_param_eq.
  destruct (has_char_after _ _ H) as [r ->]. eauto.
Qed.

Lemma parse_param_raise (token : string) :
  has_char ":" token = false ->
  GenClass.parse_param token = Raise AttributeError.
Proof.
  intros H. rewrite parse_param_eq.
  apply after_none_has_char in H. now rewrite H.
Qed.

Lemma before_no_char (c : ascii) (s : string) :
  has_char c s = false -> Py.before c s = s.
Proof.
  induction s as [|d s IH]; simpl; [reflexivity|].
  destruct (Ascii.eqb d c); simpl; [discriminate|].
  intros H. now rewrite IH.
Qed.

End Parser.

(** C3, as amended: a token with a [':'] is split on {e every} [':'] and
    only the first two fields are used: the first is the name, the second
    is split on {e every} ['='] and its first two fields are the type and
    the default; the three are trimmed.  The default is absent exactly
    when that second field has no ['='].  When nothing after the first
    [':'] is a [':'] and nothing after the first ['='] is an ['='], this
    is the documented cut at the first [':'] and the first ['=']. *)
Theorem parse_param_fields (token rest : string) :
  Py.after ":" token = Some rest ->
  let field := Py.before ":" rest in
  exists default,
    GenClass.parse_param token =
      Ok (Py.strip (Py.before ":" token),
          (Py.strip (Py.before "=" field), default)) /\
    default = option_map (fun d => Py.strip (Py.before "=" d))
                         (Py.after "=" field) /\
    (default = None <-> Py.has_char "=" field = false) /\
    (Py.has_char ":" rest = false ->
     (forall d, Py.after "=" rest = Some d -> Py.has_char "=" d = false) ->
     GenClass.parse_param token = Documented.parse_token token).
Proof.
  intros Hrest field.
  eexists. split; [|split; [reflexivity|split]].
  - rewrite parse_param_eq, Hrest. reflexivity.
  - rewrite <- after_none_has_char.
    destruct (Py.after "=" field); simpl; split; congruence.
  - intros Hcolon Heq.
    rewrite parse_param_eq. unfold Documented.parse_token. rewrite Hrest.
    cbn zeta. rewrite (before_no_char ":" rest Hcolon).
    destruct (Py.after "=" rest) as [d|]; [|reflexivity].
    cbn [option_map]. now rewrite (before_no_char "=" d (Heq d eq_refl)).
Qed.

Lemma parse_param_fields_witness :
  Py.after ":" "x: int = 5" = Some " int = 5" /\
  GenClass.parse_param "x: int = 5" = Ok ("x", ("int", Some "5")) /\
  Py.after ":" "y: str" = Some " str" /\
  GenClass.parse_param "y: str" = Ok ("y", ("str", None)) /\
  GenClass.parse_param "y: str" = Documented.parse_token "y: str".
Proof.
  split; [reflexivity|]. split.
  - destruct (parse_param_fields "x: int = 5" " int = 5" eq_refl)
      as (d & Hp & Hd & _).
    rewrite Hp, Hd. reflexivity.
  - split; [reflexivity|].
    destruct (parse_param_fields "y: str" " str" eq_refl)
      as (d & Hp & Hd & _ & Hdoc).
    split.
    + rewrite Hp, Hd. reflexivity.
    + apply Hdoc; [reflexivity | discriminate].
Defined.

(** C3 as stated fails where the default holds an ['=']: the parser keeps
    what stands between the first two ['='], not the remainder; and a
    token may hold an ['='] and still have no default. *)
Lemma parse_param_drops_tail :
  GenClass.parse_param "x: str = a=b" = Ok ("x", ("str", Some "a")) /\
  Documented.parse_token "x: str = a=b" = Ok ("x", ("str", Some "a=b")) /\
  GenClass.parse_param "x: str = a=b" <> Documented.parse_token "x: str = a=b" /\
  Py.has_char "=" "x=1: int" = true /\
  GenClass.parse_param "x=1: int" = Ok ("x=1", ("int", None)).
Proof.
  split; [reflexivity|]. split; [reflexivity|].
  split; [discriminate|]. split; reflexivity.
Qed.

(* ================================================================= *)
(** ** The parameter dictionary *)

Section ParamsDict.

Import Py.

Context {V : Type}.

Lemma get_set (k k' : string) (v : V) (d : Dict.t V) :
  Dict.get k (Dict.set k' v d) =
  if String.eqb k' k then Some v else Dict.get k d.
Proof.
  induction d as [|[k0 v0] d IH]; simpl.
  - reflexivity.
  - destruct (String.eqb_spec k0 k') as [->|Hne]; simpl.
    + destruct (String.eqb k' k); reflexivity.
    + destruct (String.eqb_spec k0 k) as [->|Hne'].
      * destruct (String.eqb_spec k' k) as [->|_]; congruence.
      * exact IH.
Qed.

Lemma set_fresh (k : string) (v : V) (d : Dict.t V) :
  Dict.get k d = None -> Dict.set k v d = (d ++ [(k, v)])%list.
Proof.
  induction d as [|[k0 v0] d IH]; simpl; [reflexivity|].
  destruct (String.eqb k0 k); [discriminate|].
  intros H. now rewrite IH.
Qed.

Lemma get_app_fresh (k : string) (d ps : Dict.t V) :
  Dict.get k d = None -> Dict.get k (d ++ ps)%list = Dict.get k ps.
Proof.
  induction d as [|[k0 v0] d IH]; simpl; [reflexivity|].
  destruct (String.eqb k0 k); [discriminate | exact IH].
Qed.

Lemma get_not_in (k : string) (d : Dict.t V) :
  ~ In k (map fst d) -> Dict.get k d = None.
Proof.
  induction d as [|[k0 v0] d IH]; simpl; [reflexivity|].
  intros H. destruct (String.eqb_spec k0 k) as [->|_]; [tauto|].
  apply IH. tauto.
Qed.

(** Pairwise distinct fresh keys are appended in order. *)
Lemma assign_all_fresh (ps : list (string * V)) (d : Dict.t V) :
  NoDup (map fst ps) ->
  (forall k, In k (map fst ps) -> Dict.get k d = None) ->
  assign_all ps d = (d ++ ps)%list.
Proof.
  revert d. induction ps as [|[k v] ps IH]; intros d Hnd Hfresh.
  - simpl. now rewrite app_nil_r.
  - simpl in Hnd. inversion Hnd as [|? ? Hk Hnd']; subst.
    unfold assign_all. cbn [fold_left fst snd].
    rewrite set_fresh by (apply Hfresh; now left).
    fold (assign_all ps (d ++ [(k, v)])%list). rewrite IH; trivial.
    + now rewrite <- app_assoc.
    + intros k' Hin. rewrite get_app_fresh by (apply Hfresh; now right).
      simpl. destruct (String.eqb_spec k k') as [->|_]; [tauto | reflexivity].
Qed.

Lemma find_snoc {A} (f : A -> bool) (l : list A) (x : A) :
  find f (l ++ [x]) =
  match find f l with
  | Some y => Some y
  | None => if f x then Some x else None
  end.
Proof.
  induction l as [|a l IH]; simpl; [reflexivity|].
  destruct (f a); [reflexivity | exact IH].
Qed.

(** A key reads the last value assigned to it. *)
Lemma get_assign_all (k : string) (ps : list (string * V)) (d : Dict.t V) :
  Dict.get k (assign_all ps d) =
  match find (fun p => String.eqb (fst p) k) (rev ps) with
  | Some p => Some (snd p)
  | None => Dict.get k d
  end.
Proof.
  revert d. induction ps as [|[k' v] ps IH]; intros d; [reflexivity|].
  unfold assign_all. cbn [fold_left fst snd rev].
  fold (assign_all ps (Dict.set k' v d)). rewrite IH, find_snoc.
  destruct (find _ (rev ps)); [reflexivity|].
  cbn [fst snd]. rewrite get_set. now destruct (String.eqb k' k).
Qed.

End ParamsDict.

Section ParserLoop.

Import Py.

Lemma fill_params_assign (tokens : list string)
    (d : Dict.t (string * option string)) :
  GenClass.fill_params d tokens =
  rbind (rmap GenClass.parse_param tokens) (fun ps => Ok (assign_all ps d)).
Proof.
  revert d. induction tokens as [|tok tokens IH]; intros d; [reflexivity|].
  cbn [GenClass.fill_params rmap].
  destruct (GenClass.parse_param tok) as [[k v]|e]; [|reflexivity].
  cbn [rbind]. rewrite IH.
  destruct (rmap GenClass.parse_param tokens); reflexivity.
Qed.

Lemma rmap_ok {A B} (f : A -> result B) (l : list A) :
  Forall (fun x => exists y, f x = Ok y) l -> exists ys, rmap f l = Ok ys.
Proof.
  induction 1 as [|x l [y Hy] _ [ys Hys]]; simpl; [eauto|].
  rewrite Hy, Hys. simpl. eauto.
Qed.

Lemma rmap_length {A B} (f : A -> result B) (l : list A) (ys : list B) :
  rmap f l = Ok ys -> List.length ys = List.length l.
Proof.
  revert ys. induction l as [|x l IH]; simpl; intros ys H.
  - now inversion H.
  - destruct (f x); [|discriminate]. destruct (rmap f l); [|discriminate].
    inversion H; subst. simpl. f_equal. now apply IH.
Qed.

Lemma rmap_app_inv {A B} (f : A -> result B) (l1 l2 : list A) (ys : list B) :
  rmap f (l1 ++ l2) = Ok ys ->
  exists y1 y2, rmap f l1 = Ok y1 /\ rmap f l2 = Ok y2 /\ ys = (y1 ++ y2)%list.
Proof.
  revert ys. induction l1 as [|x l1 IH]; simpl; intros ys H.
  - exists [], ys. auto.
  - destruct (f x) as [y|]; [|discriminate].
    destruct (rmap f (l1 ++ l2)) as [r|] eqn:E; [|discriminate].
    destruct (IH r eq_refl) as (y1 & y2 & -> & H2 & ->).
    inversion H; subst. exists (y :: y1), y2. auto.
Qed.

Lemma rmap_removelast {A B} (f : A -> result B) (l : list A) (ys : list B) :
  rmap f l = Ok ys -> rmap f (removelast l) = Ok (removelast ys).
Proof.
  intros H. destruct l as [|a l].
  - inversion H. reflexivity.
  - assert (E : a :: l = (removelast (a :: l) ++ [last (a :: l) a])%list)
      by (apply app_removelast_last; discriminate).
    rewrite E in H. apply rmap_app_inv in H as (y1 & y2 & H1 & H2 & ->).
    rewrite H1. f_equal.
    apply rmap_length in H2. destruct y2 as [|y [|? ?]]; try discriminate.
    now rewrite removelast_last.
Qed.

Lemma slice_drop_last_1 {A} (l : list A) : slice_drop_last 1 l = removelast l.
Proof.
  unfold slice_drop_last. rewrite removelast_firstn_len.
  f_equal. lia.
Qed.

Lemma tokens_all_parse (tokens : list string) :
  Forall (fun t => has_char ":" t = true) tokens ->
  exists parsed, rmap GenClass.parse_param tokens = Ok parsed.
Proof.
  intros H. apply rmap_ok. eapply Forall_impl; [|exact H].
  intros t Ht. now apply parse_param_ok.
Qed.

End ParserLoop.

(* ================================================================= *)
(** ** The strings of a method block *)

Section MethodStrings.

Import Py.

Lemma doc_line_eq :
  (fun '(k, v) => k ++ " (" ++ fst v ++ "): " ++ "Explain this...")
  = (doc_line : string * (string * option string) -> string).
Proof. reflexivity. Qed.

(** [_get_methods_strings] once the tokens are known to parse. *)
Lemma get_methods_strings_eq (tokens : list string)
    (parsed : list (string * (string * option string))) :
  rmap GenClass.parse_param tokens = Ok parsed ->
  let params := assign_all parsed [] in
  let return_type := GenClass.get_return_0 params in
  GenClass._get_methods_strings tokens =
  Ok (join sig_sep (map strip (removelast tokens)),
      return_type,
      join doc_sep
        (map doc_line
           (filter (fun '(k, _) => negb (String.eqb k "return")) params)),
      if negb (String.eqb return_type "None")
      then (GenClass.nl ++ GenClass.nl ++ GenClass.tab 2 ++ "Returns:" ++ GenClass.nl)
             ++ (GenClass.tab 3 ++ return_type ++ ": " ++ "Explain this...")
      else "").
Proof.
  intros Hp. unfold GenClass._get_methods_strings, GenClass._get_methods_dictionary.
  rewrite fill_params_assign, Hp. cbn [rbind].
  rewrite slice_drop_last_1, doc_line_eq. reflexivity.
Qed.

Lemma get_method_eq (tpl : GenClass.TemplateStore) (name t : string)
    (tokens : list string) (a b c d : string) :
  GenClass._get_methods_strings tokens = Ok (a, b, c, d) ->
  GenClass.load_template tpl "methods" = Ok t ->
  GenClass._get_method tpl name tokens = Ok (method_block t name a b c d).
Proof.
  intros Hs Ht. unfold GenClass._get_method. rewrite Hs. cbn [rbind].
  rewrite Ht. reflexivity.
Qed.

Lemma get_return_0_last_named (parsed : list (string * (string * option string))) :
  GenClass.get_return_0 (assign_all parsed []) =
  match last_named "return" parsed with
  | Some p => fst (snd p)
  | None => "None"
  end.
Proof.
  unfold GenClass.get_return_0, last_named. rewrite get_assign_all.
  destruct (find _ (rev parsed)); reflexivity.
Qed.

Lemma filter_not_return {V} (ps : list (string * V)) (ret : V) :
  NoDup (map fst (ps ++ [("return", ret)])) ->
  filter (fun '(k, _) => negb (String.eqb k "return")) (ps ++ [("return", ret)])
  = ps.
Proof.
  intros Hnd. rewrite filter_app. simpl. rewrite app_nil_r.
  apply forallb_filter_id. apply forallb_forall. intros [k v] Hin.
  apply negb_true_iff. apply String.eqb_neq. intros ->.
  rewrite map_app in Hnd. simpl in Hnd.
  apply NoDup_remove_2 in Hnd. apply Hnd. rewrite app_nil_r.
  change "return" with (fst ("return", v)). now apply in_map.
Qed.

End MethodStrings.

(** C2: the tokens of a raw parameter list are at least one; the
    signature renders all of them but the final one, trimmed and joined,
    and that string is what [_get_method] substitutes for
    [{method_params}]; a single token leaves the signature empty. *)
Theorem method_params_all_but_last (raw : string) :
  let tokens := Py.split "," raw in
  1 <= List.length tokens /\
  tokens = (removelast tokens ++ [last tokens ""])%list /\
  List.length (removelast tokens) = List.length tokens - 1 /\
  (Forall (fun t => Py.has_char ":" t = true) tokens ->
   exists return_type params_docstring returns_string,
     GenClass._get_methods_strings tokens =
       Ok (Py.join sig_sep (map Py.strip (removelast tokens)),
           return_type, params_docstring, returns_string) /\
     forall tpl name t,
       GenClass.load_template tpl "methods" = Ok t ->
       GenClass._get_method tpl name tokens =
         Ok (method_block t name
               (Py.join sig_sep (map Py.strip (removelast tokens)))
               return_type params_docstring returns_string)) /\
  (List.length tokens = 1 ->
   Py.join sig_sep (map Py.strip (removelast tokens)) = "").
Proof.
  intros tokens. pose proof (split_length_pos "," raw) as Hlen.
  fold tokens in Hlen.
  assert (Hne : tokens <> []) by (intros E; rewrite E in Hlen; simpl in Hlen; lia).
  split; [exact Hlen|]. split; [now apply app_removelast_last|].
  split; [|split].
  - rewrite removelast_firstn_len, length_firstn. lia.
  - intros Hall. destruct (tokens_all_parse tokens Hall) as [parsed Hp].
    pose proof (get_methods_strings_eq tokens parsed Hp) as Hs.
    cbn zeta in Hs. do 3 eexists. split; [exact Hs|].
    intros tpl name t Ht. now apply get_method_eq.
  - intros H1. destruct tokens as [|x [|y l]]; simpl in H1; try lia.
    reflexivity.
Qed.

Lemma method_params_all_but_last_witness :
  Forall (fun t => Py.has_char ":" t = true)
    (Py.split "," "a: int, return: float") /\
  (exists return_type params_docstring returns_string,
     GenClass._get_methods_strings (Py.split "," "a: int, return: float") =
       Ok ("a: int", return_type, params_docstring, returns_string)) /\
  List.length (Py.split "," "return: None") = 1 /\
  Py.join sig_sep (map Py.strip (removelast (Py.split "," "return: None"))) = "".
Proof.
  assert (Hall : Forall (fun t => Py.has_char ":" t = true)
                   (Py.split "," "a: int, return: float"))
    by (repeat constructor).
  split; [exact Hall|]. split.
  - destruct (method_params_all_but_last "a: int, return: float")
      as (_ & _ & _ & H & _).
    destruct (H Hall) as (rt & pd & rs & Hs & _).
    exists rt, pd, rs. exact Hs.
  - split; [reflexivity|].
    destruct (method_params_all_but_last "return: None") as (_ & _ & _ & _ & H).
    exact (H eq_refl).
Defined.

(** C4, as amended: when the tokens of a method all parse, bear pairwise
    distinct names and end with a token named [return], the documented
    lines are exactly one per token before the final one, in order: the
    tokens the signature renders. *)
Theorem params_docstring_matches_signature (tokens : list string)
    (ps : list (string * (string * option string)))
    (ret : string * option string) :
  rmap GenClass.parse_param tokens = Ok (ps ++ [("return", ret)])%list ->
  NoDup (map fst (ps ++ [("return", ret)])) ->
  exists return_type returns_string,
    GenClass._get_methods_strings tokens =
      Ok (Py.join sig_sep (map Py.strip (removelast tokens)),
          return_type,
          Py.join doc_sep (map doc_line ps),
          returns_string) /\
    rmap GenClass.parse_param (removelast tokens) = Ok ps /\
    List.length ps = List.length (removelast tokens).
Proof.
  intros Hp Hnd.
  pose proof (get_methods_strings_eq tokens _ Hp) as Hs. cbn zeta in Hs.
  rewrite (assign_all_fresh _ [] Hnd) in Hs by reflexivity.
  cbn [app] in Hs. rewrite (filter_not_return ps ret Hnd) in Hs.
  pose proof (rmap_removelast _ _ _ Hp) as Hr.
  rewrite removelast_last in Hr.
  do 2 eexists. split; [exact Hs|]. split; [exact Hr|].
  now apply rmap_length in Hr.
Qed.

Lemma params_docstring_matches_signature_witness :
  rmap GenClass.parse_param (Py.split "," "a: int, b: str = x, return: float")
    = Ok ([("a", ("int", None)); ("b", ("str", Some "x"))]
            ++ [("return", ("float", None))])%list /\
  NoDup (map fst ([("a", ("int", @None string)); ("b", ("str", Some "x"))]
            ++ [("return", ("float", None))])) /\
  exists return_type returns_string,
    GenClass._get_methods_strings
      (Py.split "," "a: int, b: str = x, return: float") =
    Ok ("a: int" ++ sig_sep ++ "b: str = x", return_type,
        "a (int): Explain this..." ++ doc_sep ++ "b (str): Explain this...",
        returns_string).
Proof.
  assert (Hnd : NoDup (map fst ([("a", ("int", @None string));
                                 ("b", ("str", Some "x"))]
                                  ++ [("return", ("float", None))]))).
  { simpl. repeat constructor; simpl; intuition discriminate. }
  split; [reflexivity|]. split; [exact Hnd|].
  destruct (params_docstring_matches_signature
              (Py.split "," "a: int, b: str = x, return: float")
              [("a", ("int", None)); ("b", ("str", Some "x"))]
              ("float", None) eq_refl Hnd) as (rt & rs & Hs & _).
  exists rt, rs. exact Hs.
Defined.

(** C4 as stated fails on a list that does not end with a [return]
    token: the signature drops the final token by position, the
    documented lines drop entries by name, so [b] is documented and is
    not in the signature. *)
Lemma params_docstring_keeps_last :
  GenClass._get_methods_strings (Py.split "," "a: int, b: str") =
    Ok ("a: int", "None",
        "a (int): Explain this..." ++ doc_sep ++ "b (str): Explain this...",
        "") /\
  map Documented.param_name (removelast (Py.split "," "a: int, b: str")) = ["a"] /\
  Py.contains "b (str)"
    ("a (int): Explain this..." ++ doc_sep ++ "b (str): Explain this...") = true.
Proof. repeat split. Qed.

(** C5, as amended: [{return_type}] is the type of the last token whose
    trimmed name is [return], wherever it stands in the list (the final
    entry, when the list ends with it), and the literal [None] when no
    token bears that name; the Returns block is empty exactly when that
    type is [None]. *)
Theorem return_type_by_name (tokens : list string)
    (parsed : list (string * (string * option string))) :
  rmap GenClass.parse_param tokens = Ok parsed ->
  exists method_params return_type params_docstring returns_string,
    GenClass._get_methods_strings tokens =
      Ok (method_params, return_type, params_docstring, returns_string) /\
    return_type = match last_named "return" parsed with
                  | Some p => fst (snd p)
                  | None => "None"
                  end /\
    (forall ps type default,
       parsed = (ps ++ [("return", (type, default))])%list ->
       return_type = type) /\
    (returns_string = "" <-> return_type = "None") /\
    forall tpl name t,
      GenClass.load_template tpl "methods" = Ok t ->
      GenClass._get_method tpl name tokens =
        Ok (method_block t name method_params return_type
              params_docstring returns_string).
Proof.
  intros Hp.
  pose proof (get_methods_strings_eq tokens parsed Hp) as Hs. cbn zeta in Hs.
  do 4 eexists. split; [exact Hs|].
  rewrite get_return_0_last_named.
  split; [reflexivity|]. split; [|split].
  - intros ps ty d ->. unfold last_named. rewrite rev_unit. reflexivity.
  - destruct (String.eqb_spec
                match last_named "return" parsed with
                | Some p => fst (snd p)
                | None => "None"
                end "None") as [E|E]; cbn [negb].
    + tauto.
    + split; [discriminate | congruence].
  - intros tpl name t Ht. apply get_method_eq; trivial.
    now rewrite <- get_return_0_last_named.
Qed.

Lemma return_type_by_name_witness :
  rmap GenClass.parse_param (Py.split "," "a: int, return: float")
    = Ok [("a", ("int", None)); ("return", ("float", None))] /\
  exists method_params params_docstring returns_string,
    GenClass._get_methods_strings (Py.split "," "a: int, return: float") =
      Ok (method_params, "float", params_docstring, returns_string) /\
    returns_string <> "".
Proof.
  split; [reflexivity|].
  destruct (return_type_by_name (Py.split "," "a: int, return: float")
              [("a", ("int", None)); ("return", ("float", None))] eq_refl)
    as (mp & rt & pd & rs & Hs & Hrt & _ & Hrs & _).
  exists mp, pd, rs. cbn in Hrt. subst rt. split; [exact Hs|].
  intros E. apply Hrs in E. discriminate.
Defined.

(** C5 as stated fails where a token named [return] is not the final
    one: the type substituted is that token's, neither the final entry's
    type nor [None]; and a list without any [return] token gets [None],
    not the type of its final entry. *)
Lemma return_type_not_final_entry :
  (exists a c d,
     GenClass._get_methods_strings (Py.split "," "return: int, a: str") =
       Ok (a, "int", c, d)) /\
  Documented.return_type (Py.split "," "return: int, a: str") = "str" /\
  (exists a c d,
     GenClass._get_methods_strings (Py.split "," "a: int, b: str") =
       Ok (a, "None", c, d)) /\
  Documented.return_type (Py.split "," "a: int, b: str") = "str".
Proof.
  split; [do 3 eexists; reflexivity|]. split; [reflexivity|].
  split; [do 3 eexists; reflexivity | reflexivity].
Qed.

(* ================================================================= *)
(** ** Writes on the output tree *)

Section Files.

Import Py.

Lemma content_write_same (p t : string) (fs : Fs.t) :
  Fs.content p (Fs.write p t fs) = Fs.content p fs ++ t.
Proof.
  unfold Fs.write. unfold Fs.content at 1.
  now rewrite get_set, String.eqb_refl.
Qed.

Lemma content_write_other (p q t : string) (fs : Fs.t) :
  q <> p -> Fs.content q (Fs.write p t fs) = Fs.content q fs.
Proof.
  intros H. unfold Fs.write. unfold Fs.content at 1. rewrite get_set.
  destruct (String.eqb_spec p q); [congruence | reflexivity].
Qed.

Lemma content_open_same (p : string) (fs : Fs.t) :
  Fs.content p (Fs.open_w p fs) = "".
Proof.
  unfold Fs.open_w, Fs.content. now rewrite get_set, String.eqb_refl.
Qed.

Lemma content_open_other (p q : string) (fs : Fs.t) :
  q <> p -> Fs.content q (Fs.open_w p fs) = Fs.content q fs.
Proof.
  intros H. unfold Fs.open_w. unfold Fs.content at 1. rewrite get_set.
  destruct (String.eqb_spec p q); [congruence | reflexivity].
Qed.

Lemma join_empty_app (l1 l2 : list string) :
  join "" (l1 ++ l2) = join "" l1 ++ join "" l2.
Proof.
  induction l1 as [|x l1 IH]; [reflexivity|].
  cbn [app]. rewrite !join_empty_cons, IH. now rewrite append_assoc.
Qed.

Lemma computed_all {A} (f : A -> result string) (l : list A) (ys : list string) :
  rmap f l = Ok ys -> computed_before_failure f l = ys.
Proof.
  revert ys. induction l as [|x l IH]; simpl; intros ys H.
  - now inversion H.
  - destruct (f x) as [y|]; [|discriminate].
    destruct (rmap f l) as [r|]; [|discriminate].
    inversion H; subst. f_equal. now apply IH.
Qed.

Lemma for_each_step_ok {A} (f : A -> result string) (file : string)
    (x : A) (y : string) (l : list A) (fs : Fs.t) :
  f x = Ok y ->
  for_each (x :: l) (fun x =>
    bind (lift (f x)) (fun s => effect (Fs.write file s))) fs =
  for_each l (fun x =>
    bind (lift (f x)) (fun s => effect (Fs.write file s))) (Fs.write file y fs).
Proof.
  intros H. cbn [for_each]. unfold bind, lift, effect. now rewrite H.
Qed.

Lemma for_each_step_raise {A} (f : A -> result string) (file : string)
    (x : A) (e : exn) (l : list A) (fs : Fs.t) :
  f x = Raise e ->
  for_each (x :: l) (fun x =>
    bind (lift (f x)) (fun s => effect (Fs.write file s))) fs = (fs, Raise e).
Proof.
  intros H. cbn [for_each]. unfold bind, lift, effect. now rewrite H.
Qed.

(** A loop that computes a block and writes it, item after item: the
    file receives the blocks computed before the first failure, and the
    loop raises what [rmap] raises. *)
Lemma for_each_write {A} (f : A -> result string) (file : string)
    (l : list A) (fs : Fs.t) :
  let run := for_each l (fun x =>
               bind (lift (f x)) (fun s => effect (Fs.write file s))) fs in
  Fs.content file (fst run) =
    Fs.content file fs ++ join "" (computed_before_failure f l) /\
  snd run = rbind (rmap f l) (fun _ => Ok tt) /\
  (forall q, q <> file -> Fs.content q (fst run) = Fs.content q fs).
Proof.
  revert fs. induction l as [|x l IH]; intros fs; cbn zeta.
  - simpl. rewrite append_empty_r. auto.
  - cbn [computed_before_failure rmap].
    destruct (f x) as [y|e] eqn:E; cbn [rbind].
    + rewrite (for_each_step_ok f file x y l fs E).
      destruct (IH (Fs.write file y fs)) as (Hc & Hr & Ho).
      cbn zeta in Hc, Hr, Ho. rewrite Hc, Hr, content_write_same.
      split; [|split].
      * rewrite join_empty_cons. now rewrite append_assoc.
      * destruct (rmap f l); reflexivity.
      * intros q Hq. rewrite Ho by assumption. now apply content_write_other.
    + rewrite (for_each_step_raise f file x e l fs E).
      simpl. rewrite append_empty_r. auto.
Qed.

End Files.

Section Generation.

Import Py.

Lemma for_each_ext {A} (body1 body2 : A -> IO unit) (l : list A) :
  (forall x, body1 x = body2 x) -> for_each l body1 = for_each l body2.
Proof.
  intros H. induction l as [|x l IH]; [reflexivity|].
  cbn [for_each]. now rewrite H, IH.
Qed.

Lemma create_folder_run (folder : string) (fs : Fs.t) :
  let run := GenClass._create_folder_and_init_file folder fs in
  snd run = Ok tt /\
  forall q, q <> folder ++ "/__init__.py" ->
            Fs.content q (fst run) = Fs.content q fs.
Proof.
  cbn zeta. unfold GenClass._create_folder_and_init_file, bind, effect.
  cbn [fst snd]. split; [reflexivity|].
  intros q Hq. now rewrite content_write_other, content_open_other.
Qed.

(** The run of [_gen_class]: it raises what the rendering of the class
    text raises; on success the class file holds the class text; no
    other file than the package marker and the class file is touched. *)
Lemma gen_class_run (tpl : GenClass.TemplateStore) (self : GenClass.GenClass)
    (fs fs' : Fs.t) (r : result unit) :
  GenClass._gen_class tpl self fs = (fs', r) ->
  r = rbind (class_text tpl self) (fun _ => Ok tt) /\
  (forall c, class_text tpl self = Ok c ->
             Fs.content (class_file self) fs' = c) /\
  (forall q, q <> class_file self ->
             q <> GenClass.PATH_GEN_FILES ++ "/__init__.py" ->
             Fs.content q fs' = Fs.content q fs).
Proof.
  intros E. unfold GenClass._gen_class in E. unfold class_text.
  fold (class_file self) in E.
  set (accf := fun '(attr_name, attr_type) =>
                 GenClass._get_accessors tpl attr_name attr_type) in *.
  set (metf := fun '(method_name, method_params) =>
                 GenClass._get_method tpl method_name (split "," method_params))
    in *.
  rewrite (for_each_ext _ (fun x => bind (lift (accf x))
             (fun s => effect (Fs.write (class_file self) s)))
             (GenClass._attributes self)) in E
    by (intros [? ?]; reflexivity).
  rewrite (for_each_ext _ (fun x => bind (lift (metf x))
             (fun s => effect (Fs.write (class_file self) s)))
             (GenClass._methods self)) in E
    by (intros [? ?]; reflexivity).
  destruct (create_folder_run GenClass.PATH_GEN_FILES fs) as [Hr0 Hf0].
  cbn zeta in Hr0, Hf0. unfold bind at 1 in E.
  destruct (GenClass._create_folder_and_init_file GenClass.PATH_GEN_FILES fs)
    as [fs0 r0]. cbn [fst snd] in Hr0, Hf0. subst r0.
  unfold bind at 1 in E. unfold effect at 1 in E.
  remember (Fs.open_w (class_file self) fs0) as fs1 eqn:E1.
  unfold bind at 1 in E. unfold lift at 1 in E.
  destruct (GenClass._get_class tpl self) as [header|e]; cbn [rbind].
  2:{ inversion E; subst. split; [reflexivity|]. split; [discriminate|].
      intros q Hq Hq'. rewrite content_open_other by assumption.
      now apply Hf0. }
  unfold bind at 1 in E. unfold effect at 1 in E.
  remember (Fs.write (class_file self) header fs1) as fs2 eqn:E2.
  assert (Hc2 : Fs.content (class_file self) fs2 = header).
  { subst fs2 fs1. now rewrite content_write_same, content_open_same. }
  assert (Hf2 : forall q, q <> class_file self ->
                  q <> GenClass.PATH_GEN_FILES ++ "/__init__.py" ->
                  Fs.content q fs2 = Fs.content q fs).
  { intros q Hq Hq'. subst fs2 fs1.
    rewrite content_write_other, content_open_other by assumption.
    now apply Hf0. }
  destruct (for_each_write accf (class_file self) (GenClass._attributes self) fs2)
    as (Hc3 & Hr3 & Hf3). cbn zeta in Hc3, Hr3, Hf3.
  unfold bind at 1 in E.
  destruct (for_each (GenClass._attributes self) _ fs2) as [fs3 r3].
  cbn [fst snd] in Hc3, Hr3, Hf3.
  destruct (rmap accf (GenClass._attributes self)) as [accs|e] eqn:Ea;
    cbn [rbind] in Hr3; subst r3; cbn [rbind].
  2:{ inversion E; subst. split; [reflexivity|]. split; [discriminate|].
      intros q Hq Hq'. rewrite Hf3 by assumption. now apply Hf2. }
  rewrite (computed_all _ _ _ Ea), Hc2 in Hc3.
  destruct (for_each_write metf (class_file self) (GenClass._methods self) fs3)
    as (Hc4 & Hr4 & Hf4). cbn zeta in Hc4, Hr4, Hf4.
  rewrite E in Hc4, Hr4, Hf4. cbn [fst snd] in Hc4, Hr4, Hf4. subst r.
  destruct (rmap metf (GenClass._methods self)) as [meths|e] eqn:Em;
    cbn [rbind].
  - split; [reflexivity|]. split.
    + intros c Hc. inversion Hc; subst.
      rewrite Hc4, Hc3, (computed_all _ _ _ Em). now rewrite append_assoc.
    + intros q Hq Hq'. rewrite Hf4, Hf3 by assumption. now apply Hf2.
  - split; [reflexivity|]. split; [discriminate|].
    intros q Hq Hq'. rewrite Hf4, Hf3 by assumption. now apply Hf2.
Qed.

(** The run of [_gen_unit_tests]: it raises what the rendering of the
    test text raises; on success the test file holds the test text; only
    the two package markers and the test file are touched. *)
Lemma gen_unit_tests_run (tpl : GenClass.TemplateStore)
    (self : GenClass.GenClass) (fs fs' : Fs.t) (r : result unit) :
  GenClass._gen_unit_tests tpl self fs = (fs', r) ->
  r = rbind (test_text tpl self) (fun _ => Ok tt) /\
  (forall t, test_text tpl self = Ok t ->
             Fs.content (test_file self) fs' = t) /\
  (forall q, q <> test_file self ->
             q <> (GenClass.PATH_GEN_FILES ++ "/tests_unittest") ++ "/__init__.py" ->
             q <> ((GenClass.PATH_GEN_FILES ++ "/tests_unittest") ++ "/assets")
                    ++ "/__init__.py" ->
             Fs.content q fs' = Fs.content q fs).
Proof.
  intros E. unfold GenClass._gen_unit_tests in E. unfold test_text.
  fold (test_file self) in E.
  set (stubf := fun '(method_name, method_params) =>
                  GenClass._get_method_tests tpl self method_name method_params)
    in *.
  destruct (create_folder_run (GenClass.PATH_GEN_FILES ++ "/tests_unittest") fs)
    as [Hr0 Hf0]. cbn zeta in Hr0, Hf0. unfold bind at 1 in E.
  destruct (GenClass._create_folder_and_init_file
              (GenClass.PATH_GEN_FILES ++ "/tests_unittest") fs) as [fs0 r0].
  cbn [fst snd] in Hr0, Hf0. subst r0.
  destruct (create_folder_run
              ((GenClass.PATH_GEN_FILES ++ "/tests_unittest") ++ "/assets") fs0)
    as [Hr1 Hf1]. cbn zeta in Hr1, Hf1. unfold bind at 1 in E.
  destruct (GenClass._create_folder_and_init_file
              ((GenClass.PATH_GEN_FILES ++ "/tests_unittest") ++ "/assets") fs0)
    as [fs1 r1].
  cbn [fst snd] in Hr1, Hf1. subst r1.
  unfold bind at 1 in E. unfold effect at 1 in E.
  unfold bind at 1 in E. unfold lift at 1 in E.
  assert (Hf2 : forall q, q <> test_file self ->
             q <> (GenClass.PATH_GEN_FILES ++ "/tests_unittest") ++ "/__init__.py" ->
             q <> ((GenClass.PATH_GEN_FILES ++ "/tests_unittest") ++ "/assets")
                    ++ "/__init__.py" ->
             Fs.content q (Fs.open_w (test_file self) fs1) = Fs.content q fs).
  { intros q Hq Hq1 Hq2. rewrite content_open_other by assumption.
    rewrite Hf1 by assumption. now apply Hf0. }
  destruct (rmap stubf (GenClass._methods self)) as [stubs|e]; cbn [rbind].
  2:{ inversion E; subst. split; [reflexivity|]. split; [discriminate|].
      exact Hf2. }
  unfold bind at 1 in E. unfold lift at 1 in E.
  destruct (GenClass._get_class_tests tpl self (join "" stubs)) as [text|e].
  2:{ inversion E; subst. split; [reflexivity|]. split; [discriminate|].
      exact Hf2. }
  unfold effect in E. inversion E; subst.
  split; [reflexivity|]. split.
  - intros t Ht. inversion Ht; subst.
    now rewrite content_write_same, content_open_same.
  - intros q Hq Hq1 Hq2. rewrite content_write_other by assumption.
    now apply Hf2.
Qed.

Lemma rmap_Forall2 {A B} (f : A -> result B) (l : list A) (ys : list B) :
  rmap f l = Ok ys <-> Forall2 (fun x y => f x = Ok y) l ys.
Proof.
  revert ys. induction l as [|x l IH]; intros ys; simpl.
  - split; intros H; [inversion H; constructor | now inversion H].
  - split.
    + destruct (f x) as [y|] eqn:E; [|discriminate].
      destruct (rmap f l) as [r|]; [|discriminate].
      intros H. inversion H; subst. constructor; [assumption | now apply IH].
    + intros H. inversion H as [|? y ? r Hx Hl]; subst.
      rewrite Hx. apply IH in Hl. now rewrite Hl.
Qed.

Lemma rmap_in_ok {A B} (f : A -> result B) (l : list A) (ys : list B) (x : A) :
  rmap f l = Ok ys -> In x l -> exists y, f x = Ok y.
Proof.
  revert ys. induction l as [|a l IH]; simpl; intros ys H Hin; [tauto|].
  destruct (f a) as [y|] eqn:E; [|discriminate].
  destruct (rmap f l) as [r|]; [|discriminate].
  destruct Hin as [->|Hin]; [eauto | eapply IH; eauto].
Qed.

End Generation.

(* ================================================================= *)
(** ** TestRenderer: the names of a stub *)

Section TestStub.

Import Py.

Lemma stub_names_ok (tokens : list string) :
  rmap (fun param => deref (Pydash.get_index (split ":" param) 0)) tokens
  = Ok (map (Py.before ":") tokens).
Proof.
  induction tokens as [|t tokens IH]; [reflexivity|].
  cbn [rmap map]. rewrite split_field_0. cbn [deref rbind].
  now rewrite IH.
Qed.

(** [_get_method_tests] never fails on its parameters: the names are
    what stands before the first [':'] of each token but the last,
    as they are. *)
Lemma get_method_tests_eq (tpl : GenClass.TemplateStore)
    (self : GenClass.GenClass) (method_name method_params : string) :
  GenClass._get_method_tests tpl self method_name method_params =
  rbind (GenClass.load_template tpl "methods_tests") (fun t =>
    Ok (replace "{params}"
          (join ("," ++ GenClass.nl ++ GenClass.tab 2 ++ "#" ++ GenClass.tab 1)
             (map (Py.before ":")
                (removelast (split "," method_params))))
          (replace "{class_name}" (GenClass._name_class self)
             (replace "{class_file}" (GenClass._name_file self)
                (replace "{method_name}" method_name t))))).
Proof.
  unfold GenClass._get_method_tests.
  now rewrite stub_names_ok, slice_drop_last_1.
Qed.

End TestStub.

(** C6 at ["a: int, b: str, return: None"]: the [{params}] of the stub
    holds the second name with the blank that followed the comma, where
    the parameter parser gives it trimmed. *)
Theorem test_params_untrimmed :
  GenClass._get_method_tests Sample.params_only Sample.shape
    "f" "a: int, b: str, return: None"
  = Ok ("a," ++ GenClass.nl ++ GenClass.tab 2 ++ "#" ++ GenClass.tab 1 ++ " b") /\
  rmap GenClass.parse_param (removelast (Py.split "," "a: int, b: str, return: None"))
  = Ok [("a", ("int", None)); ("b", ("str", None))] /\
  Py.join ("," ++ GenClass.nl ++ GenClass.tab 2 ++ "#" ++ GenClass.tab 1)
    (map Documented.param_name
       (removelast (Py.split "," "a: int, b: str, return: None")))
  = "a," ++ GenClass.nl ++ GenClass.tab 2 ++ "#" ++ GenClass.tab 1 ++ "b".
Proof. repeat split. Qed.

(* ================================================================= *)
(** ** ClassRenderer: the order of the class text *)

(** C7: when the header renders, [accessors] are the accessor blocks
    of the attributes in attribute order and [methods] the method blocks
    of the methods in method order, [_gen_class] returns and leaves in
    the class file the header, then the accessor blocks, then the method
    blocks, each series in its order. *)
Theorem class_text_order (tpl : GenClass.TemplateStore)
    (self : GenClass.GenClass) (fs : Fs.t)
    (header : string) (accessors methods : list string) :
  GenClass._get_class tpl self = Ok header ->
  Forall2 (fun a block => GenClass._get_accessors tpl (fst a) (snd a) = Ok block)
    (GenClass._attributes self) accessors ->
  Forall2 (fun m block =>
             GenClass._get_method tpl (fst m) (Py.split "," (snd m)) = Ok block)
    (GenClass._methods self) methods ->
  exists fs',
    GenClass._gen_class tpl self fs = (fs', Ok tt) /\
    Fs.content (class_file self) fs' =
      header ++ Py.join "" accessors ++ Py.join "" methods.
Proof.
  intros Hh Ha Hm.
  assert (Hct : class_text tpl self =
                Ok (header ++ Py.join "" accessors ++ Py.join "" methods)).
  { unfold class_text. rewrite Hh. cbn [rbind].
    assert (Ea : rmap (fun '(attr_name, attr_type) =>
                         GenClass._get_accessors tpl attr_name attr_type)
                   (GenClass._attributes self) = Ok accessors).
    { apply rmap_Forall2. eapply Forall2_impl; [|exact Ha].
      intros [? ?] ? H. exact H. }
    assert (Em : rmap (fun '(method_name, method_params) =>
                         GenClass._get_method tpl method_name
                           (Py.split "," method_params))
                   (GenClass._methods self) = Ok methods).
    { apply rmap_Forall2. eapply Forall2_impl; [|exact Hm].
      intros [? ?] ? H. exact H. }
    rewrite Ea. cbn [rbind]. rewrite Em. reflexivity. }
  destruct (GenClass._gen_class tpl self fs) as [fs' r] eqn:E.
  apply gen_class_run in E as (Hr & Hc & _).
  exists fs'. rewrite Hct in Hr. cbn [rbind] in Hr. subst r.
  split; [reflexivity | now apply Hc].
Qed.

Lemma class_text_order_witness :
  exists header acc_x acc_y area perimeter fs',
    GenClass._get_class Sample.templates Sample.shape = Ok header /\
    GenClass._get_accessors Sample.templates "x" "int" = Ok acc_x /\
    GenClass._get_accessors Sample.templates "y" "int" = Ok acc_y /\
    GenClass._get_method Sample.templates "area"
      (Py.split "," "scale: float = 1, return: float") = Ok area /\
    GenClass._get_method Sample.templates "perimeter"
      (Py.split "," "return: float") = Ok perimeter /\
    GenClass._gen_class Sample.templates Sample.shape [] = (fs', Ok tt) /\
    Fs.content (class_file Sample.shape) fs' =
      header ++ Py.join "" [acc_x; acc_y] ++ Py.join "" [area; perimeter].
Proof.
  destruct (GenClass._get_class Sample.templates Sample.shape)
    as [header|] eqn:Eh; [|discriminate].
  destruct (GenClass._get_accessors Sample.templates "x" "int")
    as [acc_x|] eqn:Ex; [|discriminate].
  destruct (GenClass._get_accessors Sample.templates "y" "int")
    as [acc_y|] eqn:Ey; [|discriminate].
  destruct (GenClass._get_method Sample.templates "area"
              (Py.split "," "scale: float = 1, return: float"))
    as [area|] eqn:Ema; [|discriminate].
  destruct (GenClass._get_method Sample.templates "perimeter"
              (Py.split "," "return: float"))
    as [perimeter|] eqn:Emp; [|discriminate].
  destruct (class_text_order Sample.templates Sample.shape [] header
              [acc_x; acc_y] [area; perimeter] Eh) as (fs' & Hrun & Hc).
  - repeat constructor; assumption.
  - repeat constructor; assumption.
  - exists header, acc_x, acc_y, area, perimeter, fs'. auto 10.
Defined.

(* ================================================================= *)
(** ** Failure and the output files *)

Section Failure.

Import Py.

Lemma has_char_app (c : ascii) (a b : string) :
  has_char c (a ++ b) = has_char c a || has_char c b.
Proof.
  induction a as [|d a IH]; simpl; [reflexivity|].
  now rewrite IH, orb_assoc.
Qed.

(** A stem without ['/'] names a class file that is none of the files
    of the test tree. *)
Lemma class_file_apart (self : GenClass.GenClass) :
  has_char "/" (GenClass._name_file self) = false ->
  class_file self <> test_file self /\
  class_file self <> (GenClass.PATH_GEN_FILES ++ "/tests_unittest") ++ "/__init__.py" /\
  class_file self <>
    ((GenClass.PATH_GEN_FILES ++ "/tests_unittest") ++ "/assets") ++ "/__init__.py".
Proof.
  intros H.
  assert (Hpy : has_char "/" (GenClass._name_file self ++ ".py") = false)
    by (rewrite has_char_app, H; reflexivity).
  unfold class_file, test_file, GenClass.PATH_GEN_FILES.
  repeat split; intros E; simpl in E; injection E as E;
    apply (f_equal (has_char "/")) in E; rewrite Hpy in E; discriminate.
Qed.

(** The run of a whole request. *)
Lemma init_run (tpl : GenClass.TemplateStore) (name : string)
    (attrs methods : Dict.t string) (inherit : string)
    (fs fs' : Fs.t) (r : result unit) :
  GenClass.__init__ tpl name attrs methods inherit fs = (fs', r) ->
  let self := GenClass.make name attrs methods inherit in
  r = rbind (class_text tpl self)
        (fun _ => rbind (test_text tpl self) (fun _ => Ok tt)) /\
  (forall c t, class_text tpl self = Ok c -> test_text tpl self = Ok t ->
     Fs.content (test_file self) fs' = t /\
     (has_char "/" name = false -> Fs.content (class_file self) fs' = c)).
Proof.
  intros E self. unfold GenClass.__init__ in E. fold self in E.
  unfold bind in E.
  destruct (GenClass._gen_class tpl self fs) as [fs1 r1] eqn:E1.
  apply gen_class_run in E1 as (Hr1 & Hc1 & _).
  destruct (class_text tpl self) as [c|e]; cbn [rbind] in Hr1 |- *; subst r1.
  - apply gen_unit_tests_run in E as (Hr & Hc & Hf).
    split; [exact Hr|]. intros c' t Hc' Ht. inversion Hc'; subst c'.
    split; [now apply Hc|].
    intros Hname. destruct (class_file_apart self Hname) as (N1 & N2 & N3).
    rewrite Hf by assumption. now apply Hc1.
  - inversion E; subst. split; [reflexivity | discriminate].
Qed.

Lemma get_method_ok_parse (tpl : GenClass.TemplateStore) (name block : string)
    (tokens : list string) :
  GenClass._get_method tpl name tokens = Ok block ->
  exists parsed, rmap GenClass.parse_param tokens = Ok parsed.
Proof.
  unfold GenClass._get_method, GenClass._get_methods_strings,
    GenClass._get_methods_dictionary.
  rewrite fill_params_assign.
  destruct (rmap GenClass.parse_param tokens) as [parsed|]; [eauto|discriminate].
Qed.

Lemma class_text_ok_tokens (tpl : GenClass.TemplateStore)
    (self : GenClass.GenClass) (c m p tok : string) :
  class_text tpl self = Ok c ->
  In (m, p) (GenClass._methods self) -> In tok (split "," p) ->
  has_char ":" tok = true.
Proof.
  unfold class_text. intros H Hm Htok.
  destruct (GenClass._get_class tpl self); [|discriminate].
  cbn [rbind] in H. destruct (rmap _ (GenClass._attributes self)); [|discriminate].
  cbn [rbind] in H.
  destruct (rmap _ (GenClass._methods self)) as [meths|] eqn:Em; [|discriminate].
  destruct (rmap_in_ok _ _ _ _ Em Hm) as [block Hb].
  destruct (get_method_ok_parse _ _ _ _ Hb) as [parsed Hp].
  destruct (rmap_in_ok _ _ _ _ Hp Htok) as [x Hx].
  destruct (has_char ":" tok) eqn:Ec; [reflexivity|].
  rewrite (parse_param_raise tok Ec) in Hx. discriminate.
Qed.

Lemma load_template_missing (tpl : GenClass.TemplateStore) (name : string) :
  Dict.get (GenClass.PATH_TEMPLATES ++ "/" ++ name) tpl = None ->
  GenClass.load_template tpl name =
    Raise (FileNotFoundError (GenClass.PATH_TEMPLATES ++ "/" ++ name)).
Proof. intros H. unfold GenClass.load_template. now rewrite H. Qed.

Lemma rmap_nonempty_ok {A B} (f : A -> result B) (l : list A) (ys : list B) :
  rmap f l = Ok ys -> l <> [] -> exists x y, In x l /\ f x = Ok y.
Proof.
  intros H Hne. destruct l as [|x l]; [congruence|].
  destruct (rmap_in_ok f _ _ x H (or_introl eq_refl)) as [y Hy].
  exists x, y. split; [now left | exact Hy].
Qed.

(** A template that the class text reads is in the store when the class
    text renders. *)
Lemma class_text_ok_templates (tpl : GenClass.TemplateStore)
    (self : GenClass.GenClass) (c : string) :
  class_text tpl self = Ok c ->
  (exists t, GenClass.load_template tpl "class" = Ok t) /\
  (GenClass._attributes self <> [] ->
   exists t, GenClass.load_template tpl "accessors" = Ok t) /\
  (GenClass._methods self <> [] ->
   exists t, GenClass.load_template tpl "methods" = Ok t).
Proof.
  unfold class_text. intros H.
  destruct (GenClass._get_class tpl self) as [h|] eqn:Eh; [|discriminate].
  cbn [rbind] in H.
  destruct (rmap _ (GenClass._attributes self)) as [accs|] eqn:Ea; [|discriminate].
  cbn [rbind] in H.
  destruct (rmap _ (GenClass._methods self)) as [meths|] eqn:Em; [|discriminate].
  split; [|split].
  - unfold GenClass._get_class in Eh.
    destruct (GenClass._get_attributes_strings self) as [[? ?] ?].
    destruct (GenClass.load_template tpl "class"); [eauto | discriminate].
  - intros Hne. destruct (rmap_nonempty_ok _ _ _ Ea Hne) as ([n t] & y & _ & Hy).
    unfold GenClass._get_accessors in Hy.
    destruct (GenClass.load_template tpl "accessors"); [eauto | discriminate].
  - intros Hne. destruct (rmap_nonempty_ok _ _ _ Em Hne) as ([m p] & y & _ & Hy).
    unfold GenClass._get_method in Hy.
    destruct (GenClass._get_methods_strings _) as [[[[? ?] ?] ?]|]; [|discriminate].
    cbn [rbind] in Hy.
    destruct (GenClass.load_template tpl "methods"); [eauto | discriminate].
Qed.

Lemma test_text_ok_templates (tpl : GenClass.TemplateStore)
    (self : GenClass.GenClass) (t : string) :
  test_text tpl self = Ok t ->
  (exists t, GenClass.load_template tpl "tests" = Ok t) /\
  (GenClass._methods self <> [] ->
   exists t, GenClass.load_template tpl "methods_tests" = Ok t).
Proof.
  unfold test_text. intros H.
  destruct (rmap _ (GenClass._methods self)) as [stubs|] eqn:Es; [|discriminate].
  cbn [rbind] in H. split.
  - unfold GenClass._get_class_tests in H.
    destruct (GenClass.load_template tpl "tests"); [eauto | discriminate].
  - intros Hne. destruct (rmap_nonempty_ok _ _ _ Es Hne) as ([m p] & y & _ & Hy).
    rewrite get_method_tests_eq in Hy.
    destruct (GenClass.load_template tpl "methods_tests"); [eauto | discriminate].
Qed.

(** The renderers read the stem, the attributes, the methods and the
    class name of a request, and nothing else of it. *)
Lemma renderers_ignore_inherit (tpl : GenClass.TemplateStore)
    (self1 self2 : GenClass.GenClass) :
  GenClass._name_file self1 = GenClass._name_file self2 ->
  GenClass._attributes self1 = GenClass._attributes self2 ->
  GenClass._methods self1 = GenClass._methods self2 ->
  GenClass._name_class self1 = GenClass._name_class self2 ->
  GenClass._gen_class tpl self1 = GenClass._gen_class tpl self2 /\
  GenClass._gen_unit_tests tpl self1 = GenClass._gen_unit_tests tpl self2 /\
  class_text tpl self1 = class_text tpl self2 /\
  test_text tpl self1 = test_text tpl self2.
Proof.
  destruct self1, self2. cbn. intros -> -> -> ->. repeat split.
Qed.

End Failure.

(** C9: a request returns normally exactly when every stage of the class
    text and of the test text succeeds, and then the test file, and the
    class file of a stem without ['/'], hold the complete texts; when a
    stage fails its exception is what the request raises, the class
    stages before the test stages.  In particular a token without [':']
    in some method, or a missing [class] or [tests] template, makes the
    request raise. *)
Theorem failure_is_raised (tpl : GenClass.TemplateStore) (name : string)
    (attrs methods : Dict.t string) (inherit : string)
    (fs fs' : Fs.t) (r : result unit) :
  GenClass.__init__ tpl name attrs methods inherit fs = (fs', r) ->
  let self := GenClass.make name attrs methods inherit in
  (r = Ok tt <->
   exists c t, class_text tpl self = Ok c /\ test_text tpl self = Ok t) /\
  (forall e, class_text tpl self = Raise e -> r = Raise e) /\
  (forall c e, class_text tpl self = Ok c -> test_text tpl self = Raise e ->
               r = Raise e) /\
  (forall c t, class_text tpl self = Ok c -> test_text tpl self = Ok t ->
     Fs.content (test_file self) fs' = t /\
     (Py.has_char "/" name = false -> Fs.content (class_file self) fs' = c)) /\
  (forall m p tok, In (m, p) methods -> In tok (Py.split "," p) ->
     Py.has_char ":" tok = false -> exists e, r = Raise e) /\
  (forall nm, template_used attrs methods nm ->
     Dict.get (GenClass.PATH_TEMPLATES ++ "/" ++ nm) tpl = None ->
     exists e, r = Raise e).
Proof.
  intros E self. apply init_run in E as (Hr & Hfiles). fold self in Hr, Hfiles.
  split; [|split; [|split; [|split; [|split]]]].
  - destruct (class_text tpl self) as [c|e]; cbn [rbind] in Hr.
    + destruct (test_text tpl self) as [t|e]; cbn [rbind] in Hr; subst r.
      * split; eauto.
      * split; [discriminate|]. intros (c' & t & _ & Ht). discriminate.
    + subst r. split; [discriminate|]. intros (c & t & Hc & _). discriminate.
  - intros e He. now rewrite He in Hr.
  - intros c e Hc He. now rewrite Hc, He in Hr.
  - exact Hfiles.
  - intros m p tok Hm Htok Hcolon.
    destruct (class_text tpl self) as [c|e] eqn:Ec; cbn [rbind] in Hr.
    + pose proof (class_text_ok_tokens tpl self c m p tok Ec Hm Htok).
      congruence.
    + eauto.
  - intros nm Hnm Hmiss. apply load_template_missing in Hmiss.
    destruct (class_text tpl self) as [c|e] eqn:Ec; cbn [rbind] in Hr; [|eauto].
    destruct (test_text tpl self) as [t|e] eqn:Et; cbn [rbind] in Hr; [|eauto].
    exfalso.
    destruct (class_text_ok_templates tpl self c Ec) as ([t1 H1] & Hacc & Hmet).
    destruct (test_text_ok_templates tpl self t Et) as ([t2 H2] & Hstub).
    destruct Hnm as [->|[->|[[-> Hne]|[[-> Hne]|[-> Hne]]]]].
    + congruence.
    + congruence.
    + destruct (Hacc Hne). congruence.
    + destruct (Hmet Hne). congruence.
    + destruct (Hstub Hne). congruence.
Qed.

Lemma failure_is_raised_witness :
  let run := GenClass.__init__ Sample.templates "disc" [("r", "float")]
               [("area", "return: float"); ("grow", "factor")] "" [] in
  Py.has_char ":" "factor" = false /\
  snd run = Raise AttributeError /\
  Py.contains "def area" (Fs.content "./gen_files/disc.py" (fst run)) = true /\
  Py.contains "def grow" (Fs.content "./gen_files/disc.py" (fst run)) = false.
Proof.
  intros run.
  assert (E : run = (fst run, snd run)) by (now destruct run).
  destruct (failure_is_raised _ _ _ _ _ _ _ _ E) as (_ & _ & _ & _ & H & _).
  destruct (H "grow" "factor" "factor") as [e He];
    [simpl; auto | simpl; auto | reflexivity |].
  split; [reflexivity|]. split.
  - rewrite He. f_equal.
    assert (Hc : snd run = Raise AttributeError) by (vm_compute; reflexivity).
    congruence.
  - split; vm_compute; reflexivity.
Defined.

(* ================================================================= *)
(** ** The base class *)

(** C10: the base class is recorded by [__init__], and two requests
    that differ by it alone run alike: same writes, same result, same
    class text, same test text. *)
Theorem inherit_not_rendered (tpl : GenClass.TemplateStore) (name : string)
    (attrs methods : Dict.t string) (inherit1 inherit2 : string) (fs : Fs.t) :
  GenClass._inherit (GenClass.make name attrs methods inherit1) =
    (if String.eqb inherit1 "" then ":" else "(" ++ inherit1 ++ "):") /\
  GenClass.__init__ tpl name attrs methods inherit1 fs =
    GenClass.__init__ tpl name attrs methods inherit2 fs /\
  class_text tpl (GenClass.make name attrs methods inherit1) =
    class_text tpl (GenClass.make name attrs methods inherit2) /\
  test_text tpl (GenClass.make name attrs methods inherit1) =
    test_text tpl (GenClass.make name attrs methods inherit2).
Proof.
  split; [reflexivity|].
  destruct (renderers_ignore_inherit tpl
              (GenClass.make name attrs methods inherit1)
              (GenClass.make name attrs methods inherit2))
    as (Hclass & Htests & Hct & Htt); try reflexivity.
  split; [|split; assumption].
  unfold GenClass.__init__. now rewrite Hclass, Htests.
Qed.

(* ================================================================= *)
(** ** Literal replacement on a template of pieces *)

Section Replacement.

Import Py.

Lemma replace_from_skip (old new a rest : string) :
  replace_from old new (String.length a) (a ++ rest) = replace_from old new 0 rest.
Proof. induction a as [|c a IH]; simpl; [reflexivity | exact IH]. Qed.

Lemma prefix_app_self (old rest : string) : prefix old (old ++ rest) = true.
Proof.
  induction old as [|c old IH]; simpl; [now destruct rest|].
  destruct (ascii_dec c c); [exact IH | congruence].
Qed.

(** An occurrence at the head is replaced and the scan resumes after it. *)
Lemma replace_hit (c : ascii) (old' new rest : string) :
  replace (String c old') new (String c old' ++ rest) =
  new ++ replace (String c old') new rest.
Proof.
  unfold replace. cbn [append replace_from].
  change (String c (old' ++ rest)) with (String c old' ++ rest).
  rewrite prefix_app_self.
  replace (String.length (String c old') - 1) with (String.length old')
    by (cbn [String.length]; lia).
  now rewrite replace_from_skip.
Qed.

(** No occurrence at the head: the character is kept. *)
Lemma replace_miss (old new : string) (c : ascii) (s : string) :
  prefix old (String c s) = false ->
  replace old new (String c s) = String c (replace old new s).
Proof. intros H. unfold replace. cbn [replace_from]. now rewrite H. Qed.

Lemma replace_empty (old new : string) : replace old new "" = "".
Proof. reflexivity. Qed.

(** Text without an opening brace is passed unchanged by the
    replacement of a token. *)
Lemma replace_clean_prefix (tok new s t : string) :
  clean s = true ->
  replace (String "{" tok) new (s ++ t) = s ++ replace (String "{" tok) new t.
Proof.
  induction s as [|c s IH]; intros H; [reflexivity|].
  unfold clean in H. cbn [all_chars] in H.
  apply andb_true_iff in H as [Hc Hs].
  cbn [append]. rewrite replace_miss.
  - now rewrite (IH Hs).
  - cbn [prefix]. destruct (ascii_dec "{" c) as [<-|_]; [discriminate|reflexivity].
Qed.

Lemma plain_clean (s : string) : plain s = true -> clean s = true.
Proof.
  unfold plain, clean. induction s as [|c s IH]; simpl; [reflexivity|].
  intros H. apply andb_true_iff in H as [Hc Hs].
  apply andb_true_iff in Hc as [Hc _]. now rewrite Hc, IH.
Qed.

Lemma clean_app (a b : string) : clean (a ++ b) = clean a && clean b.
Proof. apply all_chars_app. Qed.

(** Two token names without braces: one token opens the text of the
    other exactly when the names are equal. *)
Lemma prefix_token (n m rest : string) :
  plain n = true -> plain m = true ->
  prefix (n ++ "}") (m ++ "}" ++ rest) = String.eqb n m.
Proof.
  revert m. induction n as [|a n IH]; intros [|b m] Hn Hm.
  - now destruct rest.
  - unfold plain in Hm. cbn [all_chars] in Hm.
    apply andb_true_iff in Hm as [Hb _]. apply andb_true_iff in Hb as [_ Hb].
    cbn [append prefix String.eqb].
    destruct (ascii_dec "}" b) as [<-|_]; [discriminate|reflexivity].
  - unfold plain in Hn. cbn [all_chars] in Hn.
    apply andb_true_iff in Hn as [Ha _]. apply andb_true_iff in Ha as [_ Ha].
    cbn [append prefix String.eqb].
    destruct (ascii_dec a "}") as [->|_]; [discriminate|reflexivity].
  - unfold plain in Hn, Hm. cbn [all_chars] in Hn, Hm.
    apply andb_true_iff in Hn as [_ Hn]. apply andb_true_iff in Hm as [_ Hm].
    cbn [append prefix String.eqb].
    destruct (ascii_dec a b) as [->|Hab].
    + rewrite Ascii.eqb_refl. now apply IH.
    + destruct (Ascii.eqb_spec a b); [congruence | reflexivity].
Qed.

Lemma replace_other_token (name n v rest : string) :
  plain name = true -> plain n = true -> n <> name ->
  replace (String "{" (name ++ "}")) v (String "{" ((n ++ "}") ++ rest)) =
  String "{" ((n ++ "}") ++ replace (String "{" (name ++ "}")) v rest).
Proof.
  intros Hname Hn Hne. rewrite replace_miss.
  - f_equal. apply replace_clean_prefix.
    rewrite clean_app, (plain_clean n Hn). reflexivity.
  - cbn [prefix]. destruct (ascii_dec "{" "{"); [|congruence].
    rewrite append_assoc, prefix_token by assumption.
    destruct (String.eqb_spec name n); [congruence | reflexivity].
Qed.

(** Replacing a token in the text of a template is filling it in the
    pieces. *)
Lemma replace_flatten (name v : string) (ps : list piece) :
  plain name = true ->
  Forall (fun p => match p with
                   | Lit s => clean s = true
                   | Hole n => plain n = true
                   end) ps ->
  replace ("{" ++ name ++ "}") v (flatten ps) = flatten (fill name v ps).
Proof.
  intros Hname. induction 1 as [|p ps Hp _ IH]; [reflexivity|].
  cbn [flatten fill map]. fold (fill name v ps). rewrite <- IH.
  destruct p as [s|n]; cbn [piece_text].
  - now apply replace_clean_prefix.
  - destruct (String.eqb_spec n name) as [->|Hne]; cbn [piece_text].
    + apply replace_hit.
    + change (("{" ++ n ++ "}") ++ ?r) with (String "{" ((n ++ "}") ++ r)).
      now apply replace_other_token.
Qed.

Lemma fill_only (name v : string) (allowed : list string) (ps : list piece) :
  only_tokens (name :: allowed) ps -> clean v = true ->
  only_tokens allowed (fill name v ps).
Proof.
  intros H Hv. unfold only_tokens, fill. rewrite Forall_map.
  eapply Forall_impl; [|exact H]. intros [s|n]; [trivial|].
  intros [<-|Hin].
  - now rewrite String.eqb_refl.
  - destruct (String.eqb n name); [exact Hv | exact Hin].
Qed.

Lemma only_tokens_nil_clean (ps : list piece) :
  only_tokens [] ps -> clean (flatten ps) = true.
Proof.
  induction 1 as [|p ps Hp _ IH]; [reflexivity|].
  cbn [flatten]. rewrite clean_app, IH.
  destruct p as [s|n]; [cbn [piece_text]; now rewrite Hp | destruct Hp].
Qed.

(** A chain of replacements that covers the tokens of a template with
    clean values leaves no opening brace. *)
Lemma replace_chain_clean (subs : list (string * string)) (ps : list piece) :
  Forall (fun sub => plain (fst sub) = true /\ clean (snd sub) = true) subs ->
  only_tokens (map fst subs) ps ->
  clean (replace_chain subs (flatten ps)) = true.
Proof.
  intros Hsubs. revert ps.
  induction Hsubs as [|[n v] subs [Hn Hv] Hsubs IH]; intros ps Hps.
  - now apply only_tokens_nil_clean.
  - cbn [map fst snd] in *. unfold replace_chain. cbn [fold_left fst snd].
    fold (replace_chain subs (replace ("{" ++ n ++ "}") v (flatten ps))).
    rewrite replace_flatten.
    + apply IH. now apply fill_only.
    + exact Hn.
    + eapply Forall_impl; [|exact Hps]. intros [s|m]; [trivial|].
      intros [<-|Hin]; [exact Hn|].
      rewrite Forall_forall in Hsubs.
      apply in_map_iff in Hin as ([m' v'] & <- & Hin).
      now destruct (Hsubs _ Hin).
Qed.

(** A text without an opening brace holds no token. *)
Lemma clean_no_token (body text : string) :
  clean text = true -> contains (String "{" body) text = false.
Proof.
  induction text as [|c text IH]; intros H; [reflexivity|].
  unfold clean in H. cbn [all_chars] in H.
  apply andb_true_iff in H as [Hc Ht].
  cbn [contains prefix]. rewrite (IH Ht).
  destruct (ascii_dec "{" c) as [<-|_]; [discriminate | reflexivity].
Qed.

End Replacement.

(* ================================================================= *)
(** ** Values without an opening brace *)

Section CleanValues.

Import Py.

Lemma all_chars_lstrip (p : ascii -> bool) (s : string) :
  all_chars p s = true -> all_chars p (lstrip s) = true.
Proof.
  induction s as [|c s IH]; simpl; [reflexivity|].
  intros H. destruct (is_space c); [|exact H].
  apply andb_true_iff in H as [_ Hs]. now apply IH.
Qed.

Lemma all_chars_rstrip (p : ascii -> bool) (s : string) :
  all_chars p s = true -> all_chars p (rstrip s) = true.
Proof.
  induction s as [|c s IH]; simpl; [reflexivity|].
  intros H. apply andb_true_iff in H as [Hc Hs]. specialize (IH Hs).
  destruct (rstrip s) as [|d r].
  - destruct (is_space c); simpl; [reflexivity | now rewrite Hc].
  - cbn [all_chars] in *. now rewrite Hc, IH.
Qed.

Lemma clean_strip (s : string) : clean s = true -> clean (strip s) = true.
Proof.
  intros H. unfold strip, clean. now apply all_chars_rstrip, all_chars_lstrip.
Qed.

Lemma all_chars_before (p : ascii -> bool) (c : ascii) (s : string) :
  all_chars p s = true -> all_chars p (Py.before c s) = true.
Proof.
  induction s as [|d s IH]; simpl; [reflexivity|].
  intros H. apply andb_true_iff in H as [Hd Hs].
  destruct (Ascii.eqb d c); simpl; [reflexivity | now rewrite Hd, IH].
Qed.

Lemma all_chars_after (p : ascii -> bool) (c : ascii) (s r : string) :
  all_chars p s = true -> Py.after c s = Some r -> all_chars p r = true.
Proof.
  induction s as [|d s IH]; simpl; [discriminate|].
  intros H. apply andb_true_iff in H as [Hd Hs].
  destruct (Ascii.eqb d c); [now intros [= <-] | now apply IH].
Qed.

Lemma clean_join (sep : string) (l : list string) :
  clean sep = true -> Forall (fun x => clean x = true) l ->
  clean (join sep l) = true.
Proof.
  intros Hsep. induction 1 as [|x l Hx Hl IH]; [reflexivity|].
  cbn [join]. destruct l as [|y l]; [exact Hx|].
  now rewrite !clean_app, Hx, Hsep, IH.
Qed.

Lemma upper_not_brace (c : ascii) :
  negb (Ascii.eqb c "{") = true -> negb (Ascii.eqb (upper c) "{") = true.
Proof. destruct c as [[|] [|] [|] [|] [|] [|] [|] [|]]; intros H; exact H || reflexivity. Qed.

Lemma lower_not_brace (c : ascii) :
  negb (Ascii.eqb c "{") = true -> negb (Ascii.eqb (lower c) "{") = true.
Proof. destruct c as [[|] [|] [|] [|] [|] [|] [|] [|]]; intros H; exact H || reflexivity. Qed.

Lemma clean_lower_str (s : string) : clean s = true -> clean (lower_str s) = true.
Proof.
  unfold clean. induction s as [|c s IH]; simpl; [reflexivity|].
  intros H. apply andb_true_iff in H as [Hc Hs].
  now rewrite (lower_not_brace c Hc), IH.
Qed.

Lemma clean_capitalize (s : string) : clean s = true -> clean (capitalize s) = true.
Proof.
  destruct s as [|c s]; [reflexivity|]. unfold clean. cbn [capitalize all_chars].
  intros H. apply andb_true_iff in H as [Hc Hs].
  rewrite (upper_not_brace c Hc). now apply clean_lower_str.
Qed.

Lemma clean_split (c : ascii) (s : string) :
  clean s = true -> Forall (fun x => clean x = true) (split c s).
Proof. apply all_chars_split. Qed.

Lemma clean_name_class (name : string) (attrs methods : Dict.t string)
    (inherit : string) :
  clean name = true ->
  clean (GenClass._name_class (GenClass.make name attrs methods inherit)) = true.
Proof.
  intros H. cbn [GenClass.make GenClass._name_class].
  apply clean_join; [reflexivity|]. rewrite Forall_map.
  eapply Forall_impl; [|exact (clean_split "_" name H)].
  intros seg. apply clean_capitalize.
Qed.

Lemma clean_parse_param (token k type : string) (d : option string) :
  clean token = true ->
  GenClass.parse_param token = Ok (k, (type, d)) ->
  clean k = true /\ clean type = true.
Proof.
  intros Hc. rewrite parse_param_eq.
  destruct (Py.after ":" token) as [rest|] eqn:E; [|discriminate].
  cbn zeta. intros [= <- <- _].
  pose proof (all_chars_after _ ":" token rest Hc E) as Hrest.
  split; apply clean_strip, all_chars_before; [exact Hc|].
  now apply all_chars_before.
Qed.

Lemma clean_parsed (tokens : list string)
    (parsed : list (string * (string * option string))) :
  Forall (fun t => clean t = true) tokens ->
  rmap GenClass.parse_param tokens = Ok parsed ->
  Forall (fun p => clean (fst p) = true /\ clean (fst (snd p)) = true) parsed.
Proof.
  intros Hc Hp. apply rmap_Forall2 in Hp.
  induction Hp as [|t [k [ty d]] tokens parsed Ht _ IH]; [constructor|].
  inversion Hc; subst. constructor; [|now apply IH].
  now apply (clean_parse_param t k ty d).
Qed.

Lemma Forall_set {V} (P : string * V -> Prop) (k : string) (v : V)
    (d : Dict.t V) :
  P (k, v) -> Forall P d -> Forall P (Dict.set k v d).
Proof.
  intros Hkv. induction 1 as [|[k' v'] d Hx Hd IH]; simpl.
  - repeat constructor; assumption.
  - destruct (String.eqb_spec k' k) as [->|_]; constructor; assumption.
Qed.

Lemma Forall_assign_all {V} (P : string * V -> Prop)
    (ps : list (string * V)) (d : Dict.t V) :
  Forall P ps -> Forall P d -> Forall P (assign_all ps d).
Proof.
  intros Hps. revert d. induction Hps as [|[k v] ps Hp _ IH]; intros d Hd.
  - exact Hd.
  - unfold assign_all. cbn [fold_left fst snd].
    apply IH. now apply Forall_set.
Qed.

Lemma Forall_get {V} (P : string * V -> Prop) (k : string) (v : V)
    (d : Dict.t V) :
  Forall P d -> Dict.get k d = Some v -> P (k, v).
Proof.
  induction 1 as [|[k' v'] d Hx _ IH]; simpl; [discriminate|].
  destruct (String.eqb_spec k' k) as [->|_]; [now intros [= <-] | exact IH].
Qed.

End CleanValues.

(* ================================================================= *)
(** ** Rendered blocks without an opening brace *)

Section CleanBlocks.

Import Py.

Variable tpl : GenClass.TemplateStore.

Ltac clean_parts :=
  repeat rewrite clean_app;
  repeat match goal with
         | H : clean _ = true |- _ => rewrite H
         end;
  reflexivity.

Lemma Forall_removelast {A} (P : A -> Prop) (l : list A) :
  Forall P l -> Forall P (removelast l).
Proof.
  induction 1 as [|x l Hx Hl IH]; [constructor|].
  cbn [removelast]. destruct l; [constructor | now constructor].
Qed.

Lemma rmap_Forall_ok {A B} (f : A -> result B) (Q : B -> Prop) (l : list A)
    (ys : list B) :
  Forall (fun x => forall y, f x = Ok y -> Q y) l ->
  rmap f l = Ok ys -> Forall Q ys.
Proof.
  intros H Hr. apply rmap_Forall2 in Hr.
  induction Hr as [|x y l ys Hxy _ IH]; [constructor|].
  inversion H; subst. constructor; auto.
Qed.

Lemma accessors_clean (attribute_name attribute_type : string) :
  holds_only tpl "accessors" accessors_tokens ->
  clean attribute_name = true -> clean attribute_type = true ->
  exists text, GenClass._get_accessors tpl attribute_name attribute_type = Ok text
               /\ clean text = true.
Proof.
  intros (ps & Hl & Ho) Hn Ht. unfold GenClass._get_accessors.
  rewrite Hl. cbn [rbind]. eexists. split; [reflexivity|].
  apply (replace_chain_clean
           [("attribute_name", attribute_name); ("attribute_type", attribute_type)]).
  - repeat constructor; assumption.
  - exact Ho.
Qed.

Lemma attributes_strings_clean (self : GenClass.GenClass) :
  Forall (fun a => clean (fst a) = true /\ clean (snd a) = true)
    (GenClass._attributes self) ->
  let '(doc, params, init) := GenClass._get_attributes_strings self in
  clean doc = true /\ clean params = true /\ clean init = true.
Proof.
  intros H. unfold GenClass._get_attributes_strings.
  repeat split; (apply clean_join; [reflexivity|]); rewrite Forall_map;
    (eapply Forall_impl; [|exact H]); intros [n t] [Hn Ht];
    cbn [fst snd] in *; clean_parts.
Qed.

Lemma class_header_clean (self : GenClass.GenClass) :
  holds_only tpl "class" class_tokens ->
  clean (GenClass._name_class self) = true ->
  Forall (fun a => clean (fst a) = true /\ clean (snd a) = true)
    (GenClass._attributes self) ->
  exists text, GenClass._get_class tpl self = Ok text /\ clean text = true.
Proof.
  intros (ps & Hl & Ho) Hn Ha. unfold GenClass._get_class.
  pose proof (attributes_strings_clean self Ha) as Hs.
  destruct (GenClass._get_attributes_strings self) as [[doc params] init].
  destruct Hs as (Hd & Hp & Hi).
  rewrite Hl. cbn [rbind]. eexists. split; [reflexivity|].
  apply (replace_chain_clean
           [("class_name", GenClass._name_class self);
            ("attributes_params", params);
            ("attributes_docstring", doc);
            ("attributes_init", init)]).
  - repeat constructor; assumption.
  - exact Ho.
Qed.

Lemma methods_strings_clean (tokens : list string) (a b c d : string) :
  Forall (fun t => clean t = true) tokens ->
  GenClass._get_methods_strings tokens = Ok (a, b, c, d) ->
  clean a = true /\ clean b = true /\ clean c = true /\ clean d = true.
Proof.
  intros Hc Hs.
  destruct (rmap GenClass.parse_param tokens) as [parsed|e] eqn:Hp.
  2:{ unfold GenClass._get_methods_strings, GenClass._get_methods_dictionary in Hs.
      rewrite fill_params_assign, Hp in Hs. discriminate. }
  rewrite (get_methods_strings_eq tokens parsed Hp) in Hs. cbn zeta in Hs.
  pose proof (clean_parsed tokens parsed Hc Hp) as Hparsed.
  assert (Hdict : Forall (fun p => clean (fst p) = true /\ clean (fst (snd p)) = true)
                    (assign_all parsed []))
    by (apply Forall_assign_all; [exact Hparsed | constructor]).
  assert (Hrt : clean (GenClass.get_return_0 (assign_all parsed [])) = true).
  { unfold GenClass.get_return_0.
    destruct (Dict.get "return" (assign_all parsed [])) as [v|] eqn:E;
      [|reflexivity].
    now destruct (Forall_get _ _ _ _ Hdict E). }
  assert (Ha : clean (join sig_sep (map strip (removelast tokens))) = true).
  { apply clean_join; [reflexivity|]. rewrite Forall_map.
    apply Forall_removelast. eapply Forall_impl; [|exact Hc].
    intros t. apply clean_strip. }
  assert (Hdoc : clean (join doc_sep
                   (map doc_line
                      (filter (fun '(k, _) => negb (String.eqb k "return"))
                         (assign_all parsed [])))) = true).
  { apply clean_join; [reflexivity|]. rewrite Forall_map.
    rewrite Forall_forall in Hdict |- *. intros [k v] Hin.
    apply filter_In in Hin as [Hin _].
    destruct (Hdict _ Hin) as [Hk Hv]. cbn [fst snd] in *.
    unfold doc_line. clean_parts. }
  set (rt := GenClass.get_return_0 (assign_all parsed [])) in *.
  assert (Hret : clean (if negb (String.eqb rt "None")
                        then (GenClass.nl ++ GenClass.nl ++ GenClass.tab 2
                                ++ "Returns:" ++ GenClass.nl)
                               ++ (GenClass.tab 3 ++ rt ++ ": " ++ "Explain this...")
                        else "") = true).
  { destruct (negb _); [clean_parts | reflexivity]. }
  injection Hs as <- <- <- <-. auto.
Qed.

Lemma method_block_clean (method_name : string) (tokens : list string)
    (text : string) :
  holds_only tpl "methods" methods_tokens ->
  clean method_name = true -> Forall (fun t => clean t = true) tokens ->
  GenClass._get_method tpl method_name tokens = Ok text ->
  clean text = true.
Proof.
  intros (ps & Hl & Ho) Hn Hc. unfold GenClass._get_method.
  destruct (GenClass._get_methods_strings tokens) as [[[[a b] c] d]|] eqn:Hs;
    [|discriminate].
  destruct (methods_strings_clean tokens a b c d Hc Hs) as (Ha & Hb & Hc' & Hd).
  cbn [rbind]. rewrite Hl. cbn [rbind]. intros [= <-].
  apply (replace_chain_clean
           [("method_name", method_name); ("method_params", a);
            ("return_type", b); ("params_docstring", c);
            ("returns_string", d)]).
  - repeat constructor; assumption.
  - exact Ho.
Qed.

Lemma method_block_ok (method_name : string) (tokens : list string) :
  holds_only tpl "methods" methods_tokens ->
  Forall (fun t => has_char ":" t = true) tokens ->
  exists text, GenClass._get_method tpl method_name tokens = Ok text.
Proof.
  intros (ps & Hl & _) Hall.
  destruct (tokens_all_parse tokens Hall) as [parsed Hp].
  pose proof (get_methods_strings_eq tokens parsed Hp) as Hs. cbn zeta in Hs.
  eexists. eapply get_method_eq; eassumption.
Qed.

Lemma stub_clean (self : GenClass.GenClass) (method_name method_params : string) :
  holds_only tpl "methods_tests" methods_tests_tokens ->
  clean (GenClass._name_file self) = true ->
  clean (GenClass._name_class self) = true ->
  clean method_name = true -> clean method_params = true ->
  exists text,
    GenClass._get_method_tests tpl self method_name method_params = Ok text /\
    clean text = true.
Proof.
  intros (ps & Hl & Ho) Hf Hcl Hn Hp. rewrite get_method_tests_eq, Hl.
  cbn [rbind]. eexists. split; [reflexivity|].
  apply (replace_chain_clean
           [("method_name", method_name);
            ("class_file", GenClass._name_file self);
            ("class_name", GenClass._name_class self);
            ("params", _)]).
  - repeat constructor; try assumption. cbn [snd].
    apply clean_join; [reflexivity|]. rewrite Forall_map.
    apply Forall_removelast.
    eapply Forall_impl; [|exact (clean_split "," method_params Hp)].
    intros t. apply all_chars_before.
  - exact Ho.
Qed.

Lemma class_tests_clean (self : GenClass.GenClass) (methods_for_tests : string) :
  holds_only tpl "tests" tests_tokens ->
  clean (GenClass._name_file self) = true ->
  clean (GenClass._name_class self) = true ->
  clean methods_for_tests = true ->
  exists text,
    GenClass._get_class_tests tpl self methods_for_tests = Ok text /\
    clean text = true.
Proof.
  intros (ps & Hl & Ho) Hf Hcl Hm. unfold GenClass._get_class_tests.
  rewrite Hl. cbn [rbind]. eexists. split; [reflexivity|].
  apply (replace_chain_clean
           [("class_name", GenClass._name_class self);
            ("methods_for_tests", methods_for_tests);
            ("file_name", GenClass._name_file self)]).
  - repeat constructor; assumption.
  - exact Ho.
Qed.

Lemma rmap_ok_with {A B} (f : A -> result B) (Q : B -> Prop) (l : list A) :
  Forall (fun x => exists y, f x = Ok y /\ Q y) l ->
  exists ys, rmap f l = Ok ys /\ Forall Q ys.
Proof.
  induction 1 as [|x l (y & Hy & Hq) _ (ys & Hys & HQ)]; simpl.
  - exists []. auto.
  - rewrite Hy, Hys. cbn [rbind]. exists (y :: ys). auto.
Qed.

End CleanBlocks.

Lemma sample_templates_enumerated : enumerated_tokens_only Sample.templates.
Proof.
  repeat split.
  - exists Sample.class_pieces. split; [reflexivity|].
    repeat (apply Forall_cons; [first [reflexivity | simpl; auto 10]|]).
    apply Forall_nil.
  - exists Sample.accessors_pieces. split; [reflexivity|].
    repeat (apply Forall_cons; [first [reflexivity | simpl; auto 10]|]).
    apply Forall_nil.
  - exists Sample.methods_pieces. split; [reflexivity|].
    repeat (apply Forall_cons; [first [reflexivity | simpl; auto 10]|]).
    apply Forall_nil.
  - exists Sample.methods_tests_pieces. split; [reflexivity|].
    repeat (apply Forall_cons; [first [reflexivity | simpl; auto 10]|]).
    apply Forall_nil.
  - exists Sample.tests_pieces. split; [reflexivity|].
    repeat (apply Forall_cons; [first [reflexivity | simpl; auto 10]|]).
    apply Forall_nil.
Qed.

(** C8, as amended: when the five templates hold only the tokens
    enumerated for them and the stem, the attribute names and types, the
    method names and the raw parameter lists hold no opening brace, the
    class text, whenever it is rendered, and the test text, which is
    then always rendered, hold no opening brace, hence no token
    [{...}] at all; and the class text is rendered as soon as every
    parameter token has its [':']. *)
Theorem no_placeholder_left (tpl : GenClass.TemplateStore) (name : string)
    (attrs methods : Dict.t string) (inherit : string) :
  enumerated_tokens_only tpl ->
  clean_request name attrs methods ->
  let self := GenClass.make name attrs methods inherit in
  (forall text, class_text tpl self = Ok text ->
     clean text = true /\
     forall token, Py.contains ("{" ++ token ++ "}") text = false) /\
  (Forall (fun m => Forall (fun t => Py.has_char ":" t = true)
                      (Py.split "," (snd m))) methods ->
   exists text, class_text tpl self = Ok text) /\
  (exists text, test_text tpl self = Ok text /\
     clean text = true /\
     forall token, Py.contains ("{" ++ token ++ "}") text = false).
Proof.
  intros (Hclass & Hacc & Hmeth & Hstub & Htests) (Hname & Hattrs & Hmethods) self.
  assert (Hcn : clean (GenClass._name_class self) = true)
    by now apply clean_name_class.
  destruct (class_header_clean tpl self Hclass Hcn Hattrs) as (header & Hh & Hhc).
  destruct (rmap_ok_with
              (fun '(attr_name, attr_type) =>
                 GenClass._get_accessors tpl attr_name attr_type)
              (fun text => clean text = true) attrs) as (accs & Ha & Hac).
  { eapply Forall_impl; [|exact Hattrs]. intros [n t] [Hn Ht].
    now apply accessors_clean. }
  split; [|split].
  - intros text Ht. unfold class_text in Ht.
    rewrite Hh in Ht. cbn [rbind] in Ht.
    change (GenClass._attributes self) with attrs in Ht.
    rewrite Ha in Ht. cbn [rbind] in Ht.
    change (GenClass._methods self) with methods in Ht.
    destruct (rmap _ methods) as [meths|] eqn:Em; [|discriminate].
    cbn [rbind] in Ht. injection Ht as <-.
    assert (Hmc : Forall (fun text => clean text = true) meths).
    { eapply rmap_Forall_ok; [|exact Em].
      eapply Forall_impl; [|exact Hmethods].
      intros [m p] [Hm Hp] text. cbn [fst snd] in *.
      apply method_block_clean; trivial. now apply clean_split. }
    assert (Hall : clean (header ++ Py.join "" accs ++ Py.join "" meths) = true).
    { rewrite !clean_app, Hhc.
      rewrite (clean_join "" accs eq_refl Hac).
      now rewrite (clean_join "" meths eq_refl Hmc). }
    split; [exact Hall|]. intros token. now apply clean_no_token.
  - intros Hcolon. unfold class_text. rewrite Hh. cbn [rbind].
    change (GenClass._attributes self) with attrs.
    rewrite Ha. cbn [rbind].
    change (GenClass._methods self) with methods.
    destruct (@rmap_ok _ _
                (fun '(method_name, method_params) =>
                   GenClass._get_method tpl method_name
                     (Py.split "," method_params)) methods) as [meths Em].
    { eapply Forall_impl; [|exact Hcolon]. intros [m p] Hp.
      now apply method_block_ok. }
    rewrite Em. cbn [rbind]. eauto.
  - destruct (rmap_ok_with
                (fun '(method_name, method_params) =>
                   GenClass._get_method_tests tpl self method_name method_params)
                (fun text => clean text = true) methods) as (stubs & Hs & Hsc).
    { eapply Forall_impl; [|exact Hmethods]. intros [m p] [Hm Hp].
      now apply stub_clean. }
    destruct (class_tests_clean tpl self (Py.join "" stubs) Htests Hname Hcn)
      as (text & Ht & Htc).
    { now apply clean_join. }
    exists text. unfold test_text.
    change (GenClass._methods self) with methods. rewrite Hs. cbn [rbind].
    split; [exact Ht|]. split; [exact Htc|].
    intros token. now apply clean_no_token.
Qed.

Lemma no_placeholder_left_witness :
  enumerated_tokens_only Sample.templates /\
  clean_request "shape" [("x", "int"); ("y", "int")]
    [("area", "scale: float = 1, return: float"); ("perimeter", "return: float")] /\
  (exists text, class_text Sample.templates Sample.shape = Ok text /\
                Py.contains "{class_name}" text = false) /\
  (exists text, test_text Sample.templates Sample.shape = Ok text /\
                Py.contains "{params}" text = false).
Proof.
  assert (Hreq : clean_request "shape" [("x", "int"); ("y", "int")]
            [("area", "scale: float = 1, return: float");
             ("perimeter", "return: float")])
    by (repeat constructor).
  split; [exact sample_templates_enumerated|]. split; [exact Hreq|].
  destruct (no_placeholder_left Sample.templates "shape" _ _ ""
              sample_templates_enumerated Hreq) as (Hclass & Hok & Htest).
  split.
  - destruct Hok as [text Ht]; [repeat constructor|].
    exists text. split; [exact Ht|].
    destruct (Hclass text Ht) as [_ H]. exact (H "class_name").
  - destruct Htest as (text & Ht & _ & H).
    exists text. split; [exact Ht | exact (H "params")].
Defined.

(** C8 as stated fails on a request whose values hold the text of a
    token: the replacements are literal and chained, so an attribute
    type [{class_name}] enters with [{attributes_params}], after
    [{class_name}] was replaced, and stays in the class text; and an
    attribute name [{attribute_type}] is itself replaced by the type. *)
Lemma placeholder_from_attribute_type :
  enumerated_tokens_only Sample.templates /\
  (exists text,
     class_text Sample.templates Sample.braced = Ok text /\
     Py.contains "{class_name}" text = true) /\
  (exists text,
     GenClass._get_accessors Sample.templates "{attribute_type}" "int" = Ok text /\
     Py.contains "def int(self)" text = true /\
     Py.contains "def {attribute_type}(self)" text = false).
Proof.
  split; [exact sample_templates_enumerated|].
  split; eexists; repeat split.
Qed.

(* ================================================================= *)
(** ** Further properties: indentation, class name, parameter dictionary *)

Section MoreStrings.

Import Py.

Lemma str_length_app (a b : string) :
  String.length (a ++ b) = String.length a + String.length b.
Proof. induction a as [|c a IH]; simpl; [reflexivity | now rewrite IH]. Qed.

Lemma length_repeat_str (s : string) (n : nat) :
  String.length (repeat_str s n) = n * String.length s.
Proof.
  induction n as [|n IH]; simpl; [reflexivity|].
  now rewrite str_length_app, IH.
Qed.

Lemma all_chars_repeat_str (p : ascii -> bool) (s : string) (n : nat) :
  all_chars p s = true -> all_chars p (repeat_str s n) = true.
Proof.
  intros H. induction n as [|n IH]; simpl; [reflexivity|].
  now rewrite all_chars_app, H, IH.
Qed.

Lemma has_char_all_chars (c : ascii) (s : string) :
  has_char c s = false <-> all_chars (fun d => negb (Ascii.eqb d c)) s = true.
Proof.
  induction s as [|d s IH]; simpl; [tauto|].
  destruct (Ascii.eqb d c); simpl; [split; discriminate | exact IH].
Qed.




(** *** Trimming *)

Lemma lstrip_starts_clear (s : string) : starts_clear (lstrip s) = true.
Proof.
  induction s as [|c s IH]; simpl; [reflexivity|].
  destruct (is_space c) eqn:E; [exact IH | simpl; now rewrite E].
Qed.

Lemma lstrip_fixed (s : string) : starts_clear s = true -> lstrip s = s.
Proof.
  destruct s as [|c s]; simpl; [reflexivity|].
  intros H. apply negb_true_iff in H. now rewrite H.
Qed.

Lemma rstrip_starts_clear (s : string) :
  starts_clear s = true -> starts_clear (rstrip s) = true.
Proof.
  destruct s as [|c s]; simpl; [reflexivity|]. intros H.
  destruct (rstrip s); [|exact H].
  apply negb_true_iff in H. rewrite H. simpl. now rewrite H.
Qed.

Lemma rstrip_idempotent (s : string) : rstrip (rstrip s) = rstrip s.
Proof.
  induction s as [|c s IH]; [reflexivity|].
  cbn [rstrip]. destruct (rstrip s) as [|d r] eqn:E.
  - destruct (is_space c) eqn:Ec; [reflexivity|].
    cbn [rstrip]. now rewrite Ec.
  - cbn [rstrip]. cbn [rstrip] in IH. rewrite IH. reflexivity.
Qed.

Lemma strip_idempotent (s : string) : strip (strip s) = strip s.
Proof.
  unfold strip.
  rewrite (lstrip_fixed (rstrip (lstrip s)))
    by apply rstrip_starts_clear, lstrip_starts_clear.
  apply rstrip_idempotent.
Qed.

Lemma has_char_strip (c : ascii) (s : string) :
  has_char c s = false -> has_char c (strip s) = false.
Proof.
  rewrite !has_char_all_chars. intros H.
  unfold strip. now apply all_chars_rstrip, all_chars_lstrip.
Qed.

Lemma has_char_before_self (c : ascii) (s : string) :
  has_char c (before c s) = false.
Proof.
  induction s as [|d s IH]; simpl; [reflexivity|].
  destruct (Ascii.eqb d c) eqn:E; simpl; [reflexivity | now rewrite E].
Qed.

Lemma has_char_before (c e : ascii) (s : string) :
  has_char c s = false -> has_char c (before e s) = false.
Proof.
  rewrite !has_char_all_chars. apply all_chars_before.
Qed.

End MoreStrings.

(** X1: [_set_tab(nb_tab, spaces_by_tab)] is made of spaces only and is
    [nb_tab * spaces_by_tab] characters long. *)
Theorem set_tab_width (nb_tab spaces_by_tab : nat) :
  String.length (GenClass._set_tab nb_tab spaces_by_tab) = nb_tab * spaces_by_tab /\
  all_chars (fun c => Ascii.eqb c " ") (GenClass._set_tab nb_tab spaces_by_tab)
    = true.
Proof.
  unfold GenClass._set_tab. split.
  - rewrite !length_repeat_str. simpl. lia.
  - apply all_chars_repeat_str, all_chars_repeat_str. reflexivity.
Qed.


Section MoreDictionary.

Import Py.

Lemma rmap_parse_param_outcome (tokens : list string) :
  match rmap GenClass.parse_param tokens with
  | Ok _ => forallb (has_char ":") tokens = true
  | Raise e => e = AttributeError /\ forallb (has_char ":") tokens = false
  end.
Proof.
  induction tokens as [|t tokens IH]; [reflexivity|].
  cbn [rmap forallb]. destruct (has_char ":" t) eqn:E.
  - destruct (parse_param_ok t E) as [p ->]. cbn [rbind andb].
    destruct (rmap GenClass.parse_param tokens); exact IH.
  - rewrite (parse_param_raise t E). cbn. auto.
Qed.

Lemma keys_set {V} (k : string) (v : V) (d : Dict.t V) :
  map fst (Dict.set k v d) =
  if in_dec string_dec k (map fst d) then map fst d
  else (map fst d ++ [k])%list.
Proof.
  induction d as [|[k' v'] d IH]; [reflexivity|].
  cbn [Dict.set map fst].
  destruct (String.eqb_spec k' k) as [->|Hne].
  - cbn [map fst]. destruct (in_dec string_dec k (k :: map fst d)) as [_|N];
      [reflexivity | exfalso; apply N; now left].
  - cbn [map fst]. rewrite IH.
    destruct (in_dec string_dec k (map fst d)) as [Hin|Hnin];
      destruct (in_dec string_dec k (k' :: map fst d)) as [Hin'|Hnin'];
      try reflexivity.
    + exfalso. apply Hnin'. now right.
    + destruct Hin' as [E|Hin']; [congruence | contradiction].
Qed.

Lemma NoDup_set {V} (k : string) (v : V) (d : Dict.t V) :
  NoDup (map fst d) -> NoDup (map fst (Dict.set k v d)).
Proof.
  intros H. rewrite keys_set.
  destruct (in_dec string_dec k (map fst d)) as [_|Hnin]; [exact H|].
  apply NoDup_app; [exact H | repeat constructor; auto |].
  intros x Hx [<-|[]]. contradiction.
Qed.

Lemma length_set {V} (k : string) (v : V) (d : Dict.t V) :
  List.length (Dict.set k v d) <= S (List.length d).
Proof.
  rewrite <- (length_map fst (Dict.set k v d)), keys_set.
  destruct (in_dec string_dec k (map fst d)).
  - rewrite length_map. lia.
  - rewrite length_app, length_map. simpl. lia.
Qed.

Lemma assign_all_keys {V} (ps : list (string * V)) (d : Dict.t V) :
  NoDup (map fst d) ->
  NoDup (map fst (assign_all ps d)) /\
  List.length (assign_all ps d) <= List.length d + List.length ps.
Proof.
  revert d. induction ps as [|[k v] ps IH]; intros d Hd.
  - simpl. split; [exact Hd | lia].
  - unfold assign_all. cbn [fold_left fst snd].
    fold (assign_all ps (Dict.set k v d)).
    destruct (IH (Dict.set k v d) (NoDup_set k v d Hd)) as [H1 H2].
    split; [exact H1|]. pose proof (length_set k v d). simpl. lia.
Qed.

Lemma parse_param_tidy (token : string) (p : string * (string * option string)) :
  GenClass.parse_param token = Ok p -> tidy_entry p.
Proof.
  rewrite parse_param_eq.
  destruct (after ":" token) as [rest|]; [|discriminate].
  cbn zeta. intros [= <-]. unfold tidy_entry. cbn [fst snd].
  pose proof (has_char_before_self ":" rest) as Hfield.
  repeat split.
  - apply strip_idempotent.
  - apply has_char_strip, has_char_before_self.
  - apply strip_idempotent.
  - now apply has_char_strip, has_char_before.
  - apply has_char_strip, has_char_before_self.
  - destruct (after "=" (before ":" rest)); [|discriminate].
    cbn [option_map] in H. injection H as <-. apply strip_idempotent.
  - destruct (after "=" (before ":" rest)) as [d|] eqn:E; [|discriminate].
    cbn [option_map] in H. injection H as <-.
    apply has_char_strip, has_char_before.
    apply has_char_all_chars. apply has_char_all_chars in Hfield.
    exact (all_chars_after _ "=" _ d Hfield E).
  - destruct (after "=" (before ":" rest)); [|discriminate].
    cbn [option_map] in H. injection H as <-.
    apply has_char_strip, has_char_before_self.
Qed.

End MoreDictionary.

(** X3: [_get_methods_dictionary] returns exactly when every token
    holds a [':']; otherwise it raises [AttributeError], the [split] of
    [None]. *)
Theorem methods_dictionary_needs_colons (tokens : list string) :
  match GenClass._get_methods_dictionary tokens with
  | Ok _ => forallb (Py.has_char ":") tokens = true
  | Raise e => e = AttributeError /\ forallb (Py.has_char ":") tokens = false
  end.
Proof.
  unfold GenClass._get_methods_dictionary. rewrite fill_params_assign.
  pose proof (rmap_parse_param_outcome tokens) as H.
  destruct (rmap GenClass.parse_param tokens); exact H.
Qed.

(** X4: in the dictionary of a parameter list no name occurs twice, a
    name reads the type and default of the {e last} token that bears it,
    and there are at most as many entries as tokens. *)
Theorem methods_dictionary_last_wins (tokens : list string)
    (parsed : list (string * (string * option string))) :
  rmap GenClass.parse_param tokens = Ok parsed ->
  exists d,
    GenClass._get_methods_dictionary tokens = Ok d /\
    NoDup (map fst d) /\
    (forall k, Dict.get k d = option_map snd (last_named k parsed)) /\
    List.length d <= List.length tokens.
Proof.
  intros Hp. exists (assign_all parsed []).
  unfold GenClass._get_methods_dictionary.
  rewrite fill_params_assign, Hp. cbn [rbind].
  destruct (assign_all_keys parsed [] (NoDup_nil _)) as [Hnd Hlen].
  split; [reflexivity|]. split; [exact Hnd|]. split.
  - intros k. rewrite get_assign_all. unfold last_named.
    destruct (find _ (rev parsed)); reflexivity.
  - rewrite (rmap_length _ _ _ Hp) in Hlen. exact Hlen.
Qed.

Lemma methods_dictionary_last_wins_witness :
  rmap GenClass.parse_param (Py.split "," "a: int, a: str = x, return: None")
    = Ok [("a", ("int", None)); ("a", ("str", Some "x"));
          ("return", ("None", None))] /\
  exists d,
    GenClass._get_methods_dictionary
      (Py.split "," "a: int, a: str = x, return: None") = Ok d /\
    Dict.get "a" d = Some ("str", Some "x") /\
    List.length d <= 3.
Proof.
  split; [reflexivity|].
  destruct (methods_dictionary_last_wins
              (Py.split "," "a: int, a: str = x, return: None") _ eq_refl)
    as (d & Hd & _ & Hget & Hlen).
  exists d. split; [exact Hd|]. split; [rewrite Hget; reflexivity | exact Hlen].
Defined.

(** X5: every entry of the dictionary is trimmed: the name, the type
    and the default have no surrounding white space; the name holds no
    [':'], the type and the default hold neither [':'] nor ['=']. *)
Theorem methods_dictionary_tidy (tokens : list string)
    (d : Dict.t (string * option string)) :
  GenClass._get_methods_dictionary tokens = Ok d -> Forall tidy_entry d.
Proof.
  unfold GenClass._get_methods_dictionary. rewrite fill_params_assign.
  destruct (rmap GenClass.parse_param tokens) as [parsed|] eqn:Hp;
    [|discriminate].
  cbn [rbind]. intros [= <-].
  apply Forall_assign_all; [|constructor].
  apply rmap_Forall2 in Hp.
  induction Hp as [|t p tokens parsed Ht _ IH]; constructor; [|exact IH].
  now apply (parse_param_tidy t).
Qed.

Lemma methods_dictionary_tidy_witness :
  GenClass._get_methods_dictionary (Py.split "," " x : int = 5 , return: None")
    = Ok [("x", ("int", Some "5")); ("return", ("None", None))] /\
  Forall tidy_entry [("x", ("int", Some "5")); ("return", ("None", @None string))].
Proof.
  split; [reflexivity|].
  exact (methods_dictionary_tidy
           (Py.split "," " x : int = 5 , return: None") _ eq_refl).
Defined.

(* ================================================================= *)
(** ** Further properties: the renderers *)

Section MoreRenderers.

Import Py.

Lemma load_template_outcome (tpl : GenClass.TemplateStore) (name : string)
    (e : exn) :
  GenClass.load_template tpl name = Raise e ->
  e = FileNotFoundError (GenClass.PATH_TEMPLATES ++ "/" ++ name) /\
  Dict.get (GenClass.PATH_TEMPLATES ++ "/" ++ name) tpl = None.
Proof.
  unfold GenClass.load_template.
  destruct (Dict.get _ tpl); [discriminate|]. now intros [= <-].
Qed.

Lemma rmap_raise_in {A B} (f : A -> result B) (l : list A) (e : exn) :
  rmap f l = Raise e -> exists x, In x l /\ f x = Raise e.
Proof.
  induction l as [|x l IH]; simpl; [discriminate|].
  destruct (f x) as [y|e'] eqn:E.
  - cbn [rbind]. destruct (rmap f l) as [ys|e'']; [discriminate|].
    cbn [rbind]. intros [= <-]. destruct (IH eq_refl) as (x' & Hin & Hx').
    exists x'. auto.
  - cbn [rbind]. intros [= <-]. exists x. auto.
Qed.

Lemma only_tokens_pieces (allowed : list string) (ps : list piece) :
  Forall (fun n => plain n = true) allowed ->
  only_tokens allowed ps ->
  Forall (fun p => match p with
                   | Lit s => clean s = true
                   | Hole n => plain n = true
                   end) ps.
Proof.
  intros Ha Hps. rewrite Forall_forall in Ha.
  eapply Forall_impl; [|exact Hps]. intros [s|n]; [trivial | apply Ha].
Qed.

Lemma fill_pieces (name v : string) (ps : list piece) :
  clean v = true ->
  Forall (fun p => match p with
                   | Lit s => clean s = true
                   | Hole n => plain n = true
                   end) ps ->
  Forall (fun p => match p with
                   | Lit s => clean s = true
                   | Hole n => plain n = true
                   end) (fill name v ps).
Proof.
  intros Hv Hps. unfold fill. rewrite Forall_map.
  eapply Forall_impl; [|exact Hps]. intros [s|n]; [trivial|].
  intros Hn. destruct (String.eqb n name); assumption.
Qed.

(** A chain of replacements with clean values fills the tokens one
    after the other and leaves the literal text as it is. *)
Lemma replace_chain_fill (subs : list (string * string)) (ps : list piece) :
  Forall (fun sub => plain (fst sub) = true /\ clean (snd sub) = true) subs ->
  Forall (fun p => match p with
                   | Lit s => clean s = true
                   | Hole n => plain n = true
                   end) ps ->
  replace_chain subs (flatten ps) = flatten (fill_chain subs ps).
Proof.
  intros Hsubs. revert ps.
  induction Hsubs as [|[n v] subs [Hn Hv] _ IH]; intros ps Hps; [reflexivity|].
  unfold replace_chain, fill_chain. cbn [fold_left fst snd] in *.
  rewrite replace_flatten by assumption.
  apply IH. now apply fill_pieces.
Qed.

End MoreRenderers.

(** X6: [_get_method] parses before it reads its template: a token
    without [':'] makes it raise [AttributeError] whatever the store
    holds; with every token parsed, a store without the [methods]
    template makes it raise [FileNotFoundError] on that path, and a
    store with it makes it return. *)
Theorem get_method_failures (tpl : GenClass.TemplateStore)
    (method_name : string) (tokens : list string) :
  (forallb (Py.has_char ":") tokens = false ->
   GenClass._get_method tpl method_name tokens = Raise AttributeError) /\
  (forallb (Py.has_char ":") tokens = true ->
   match Dict.get "src/templates/methods" tpl with
   | None => GenClass._get_method tpl method_name tokens =
               Raise (FileNotFoundError "src/templates/methods")
   | Some _ => exists text,
       GenClass._get_method tpl method_name tokens = Ok text
   end).
Proof.
  unfold GenClass._get_method, GenClass._get_methods_strings,
    GenClass._get_methods_dictionary.
  rewrite fill_params_assign.
  pose proof (rmap_parse_param_outcome tokens) as H.
  destruct (rmap GenClass.parse_param tokens) as [d|e]; cbn [rbind].
  - split; [congruence|]. intros _. unfold GenClass.load_template.
    change (GenClass.PATH_TEMPLATES ++ "/" ++ "methods")
      with "src/templates/methods".
    destruct (Dict.get "src/templates/methods" tpl); cbn [rbind]; eauto.
  - destruct H as [-> H]. split; [reflexivity | congruence].
Qed.

Lemma get_method_failures_witness :
  forallb (Py.has_char ":") (Py.split "," "a: int, b") = false /\
  GenClass._get_method [] "f" (Py.split "," "a: int, b") = Raise AttributeError /\
  forallb (Py.has_char ":") (Py.split "," "a: int, return: str") = true /\
  GenClass._get_method [] "f" (Py.split "," "a: int, return: str") =
    Raise (FileNotFoundError "src/templates/methods").
Proof.
  split; [reflexivity|]. split.
  - destruct (get_method_failures [] "f" (Py.split "," "a: int, b")) as [H _].
    exact (H eq_refl).
  - split; [reflexivity|].
    destruct (get_method_failures [] "f" (Py.split "," "a: int, return: str"))
      as [_ H].
    exact (H eq_refl).
Defined.

(** X7: the test text never fails on a parameter token: it is rendered
    as soon as the [methods_tests] and [tests] templates are in the
    store, and an exception it raises is the [FileNotFoundError] of one
    of these two paths. *)
Theorem test_text_failures (tpl : GenClass.TemplateStore)
    (self : GenClass.GenClass) :
  (forall t1 t2,
     GenClass.load_template tpl "methods_tests" = Ok t1 ->
     GenClass.load_template tpl "tests" = Ok t2 ->
     exists text, test_text tpl self = Ok text) /\
  (forall e, test_text tpl self = Raise e ->
     e = FileNotFoundError "src/templates/methods_tests" \/
     e = FileNotFoundError "src/templates/tests").
Proof.
  split.
  - intros t1 t2 H1 H2. unfold test_text.
    destruct (@rmap_ok _ _
                (fun '(method_name, method_params) =>
                   GenClass._get_method_tests tpl self method_name method_params)
                (GenClass._methods self)) as [stubs ->].
    { apply Forall_forall. intros [m p] _.
      rewrite get_method_tests_eq, H1. cbn [rbind]. eauto. }
    cbn [rbind]. unfold GenClass._get_class_tests. rewrite H2.
    cbn [rbind]. eauto.
  - intros e. unfold test_text.
    destruct (rmap _ (GenClass._methods self)) as [stubs|e'] eqn:Es;
      cbn [rbind].
    + unfold GenClass._get_class_tests.
      destruct (GenClass.load_template tpl "tests") as [t|e'] eqn:El;
        cbn [rbind]; [discriminate|].
      intros [= <-]. right. now apply load_template_outcome in El.
    + intros [= <-]. apply rmap_raise_in in Es as ([m p] & _ & Hx).
      rewrite get_method_tests_eq in Hx.
      destruct (GenClass.load_template tpl "methods_tests") as [t|e''] eqn:El;
        cbn [rbind] in Hx; [discriminate|].
      injection Hx as <-. left. now apply load_template_outcome in El.
Qed.

Lemma test_text_failures_witness :
  exists text,
    test_text Sample.templates
      (GenClass.make "disc" [("r", "float")] [("grow", "factor")] "") = Ok text.
Proof.
  destruct (test_text_failures Sample.templates
              (GenClass.make "disc" [("r", "float")] [("grow", "factor")] ""))
    as [H _].
  exact (H _ _ eq_refl eq_refl).
Defined.

(** X8: when the [accessors] template holds only its two tokens and the
    attribute name and type hold no opening brace, the accessor block is
    the template with every [{attribute_name}] filled with the name and
    every [{attribute_type}] with the type, its literal text untouched. *)
Theorem accessors_filled (tpl : GenClass.TemplateStore) (ps : list piece)
    (attribute_name attribute_type : string) :
  GenClass.load_template tpl "accessors" = Ok (flatten ps) ->
  only_tokens accessors_tokens ps ->
  clean attribute_name = true -> clean attribute_type = true ->
  GenClass._get_accessors tpl attribute_name attribute_type =
    Ok (flatten (fill "attribute_type" attribute_type
                   (fill "attribute_name" attribute_name ps))).
Proof.
  intros Hl Hps Hn Ht. unfold GenClass._get_accessors. rewrite Hl.
  cbn [rbind]. f_equal.
  apply (replace_chain_fill
           [("attribute_name", attribute_name); ("attribute_type", attribute_type)]).
  - repeat constructor; assumption.
  - apply (only_tokens_pieces accessors_tokens); [repeat constructor | exact Hps].
Qed.

Lemma accessors_filled_witness :
  GenClass._get_accessors Sample.templates "x" "int" =
    Ok (flatten [ Lit "    def "; Lit "x"; Lit "(self) -> "; Lit "int";
                  Lit (":" ++ GenClass.nl ++ "        return self._");
                  Lit "x"; Lit GenClass.nl ]).
Proof.
  refine (accessors_filled Sample.templates Sample.accessors_pieces "x" "int"
            eq_refl _ eq_refl eq_refl).
  repeat (apply Forall_cons; [first [reflexivity | simpl; auto 10]|]).
  apply Forall_nil.
Defined.

(** X9: a template without any opening brace is emitted as it is: the
    accessor block is then the template, whatever the attribute. *)
Theorem accessors_verbatim (tpl : GenClass.TemplateStore)
    (t attribute_name attribute_type : string) :
  GenClass.load_template tpl "accessors" = Ok t ->
  clean t = true ->
  GenClass._get_accessors tpl attribute_name attribute_type = Ok t.
Proof.
  intros Hl Hc. unfold GenClass._get_accessors. rewrite Hl. cbn [rbind].
  f_equal.
  assert (H : forall tok v, Py.replace (String "{" tok) v t = t).
  { intros tok v. rewrite <- (append_empty_r t) at 1.
    rewrite (replace_clean_prefix tok v t "" Hc). apply append_empty_r. }
  change "{attribute_name}" with (String "{" "attribute_name}").
  change "{attribute_type}" with (String "{" "attribute_type}").
  now rewrite !H.
Qed.

Lemma accessors_verbatim_witness :
  GenClass._get_accessors [("src/templates/accessors", "pass")] "x" "{y}"
  = Ok "pass".
Proof.
  exact (accessors_verbatim [("src/templates/accessors", "pass")]
           "pass" "x" "{y}" eq_refl eq_refl).
Defined.

(* ================================================================= *)
(** ** Further properties: the output tree *)

Section MoreFiles.

Import Py.



Lemma test_file_not_class_file (self : GenClass.GenClass) :
  test_file self <> class_file self /\
  test_file self <> GenClass.PATH_GEN_FILES ++ "/__init__.py".
Proof.
  unfold test_file, class_file, GenClass.PATH_GEN_FILES. split; intros H.
  - simpl in H. injection H as H.
    apply (f_equal String.length) in H.
    cbn [String.length] in H. rewrite !str_length_app in H. lia.
  - simpl in H. discriminate.
Qed.

Lemma create_folder_marker (folder : string) (fs : Fs.t) :
  Fs.content (folder ++ "/__init__.py")
    (fst (GenClass._create_folder_and_init_file folder fs)) = "".
Proof.
  unfold GenClass._create_folder_and_init_file, bind, effect. cbn [fst].
  now rewrite content_write_same, content_open_same.
Qed.

(** What the class file and the package marker hold after [_gen_class],
    whether it returned or raised. *)
Lemma gen_class_trace (tpl : GenClass.TemplateStore) (self : GenClass.GenClass)
    (fs fs' : Fs.t) (r : result unit) :
  GenClass._gen_class tpl self fs = (fs', r) ->
  Fs.content (class_file self) fs' = class_written tpl self /\
  (class_file self <> GenClass.PATH_GEN_FILES ++ "/__init__.py" ->
   Fs.content (GenClass.PATH_GEN_FILES ++ "/__init__.py") fs' = "").
Proof.
  intros E. unfold GenClass._gen_class in E. unfold class_written.
  fold (class_file self) in E.
  set (accf := fun '(attr_name, attr_type) =>
                 GenClass._get_accessors tpl attr_name attr_type) in *.
  set (metf := fun '(method_name, method_params) =>
                 GenClass._get_method tpl method_name (split "," method_params))
    in *.
  cbn zeta.
  rewrite (for_each_ext _ (fun x => bind (lift (accf x))
             (fun s => effect (Fs.write (class_file self) s)))
             (GenClass._attributes self)) in E
    by (intros [? ?]; reflexivity).
  rewrite (for_each_ext _ (fun x => bind (lift (metf x))
             (fun s => effect (Fs.write (class_file self) s)))
             (GenClass._methods self)) in E
    by (intros [? ?]; reflexivity).
  pose proof (create_folder_marker GenClass.PATH_GEN_FILES fs) as Hm0.
  unfold bind at 1 in E.
  destruct (GenClass._create_folder_and_init_file GenClass.PATH_GEN_FILES fs)
    as [fs0 r0] eqn:E0.
  assert (r0 = Ok tt) as ->.
  { pose proof (create_folder_run GenClass.PATH_GEN_FILES fs) as [H _].
    cbn zeta in H. now rewrite E0 in H. }
  cbn [fst] in Hm0.
  unfold bind at 1 in E. unfold effect at 1 in E.
  remember (Fs.open_w (class_file self) fs0) as fs1 eqn:E1.
  assert (Hc1 : Fs.content (class_file self) fs1 = "")
    by (subst fs1; apply content_open_same).
  assert (Hm1 : class_file self <> GenClass.PATH_GEN_FILES ++ "/__init__.py" ->
                Fs.content (GenClass.PATH_GEN_FILES ++ "/__init__.py") fs1 = "").
  { intros N. subst fs1. rewrite content_open_other by congruence. exact Hm0. }
  unfold bind at 1 in E. unfold lift at 1 in E.
  destruct (GenClass._get_class tpl self) as [header|e].
  2:{ inversion E; subst fs'. auto. }
  unfold bind at 1 in E. unfold effect at 1 in E.
  remember (Fs.write (class_file self) header fs1) as fs2 eqn:E2.
  assert (Hc2 : Fs.content (class_file self) fs2 = header).
  { subst fs2. now rewrite content_write_same, Hc1. }
  assert (Hm2 : class_file self <> GenClass.PATH_GEN_FILES ++ "/__init__.py" ->
                Fs.content (GenClass.PATH_GEN_FILES ++ "/__init__.py") fs2 = "").
  { intros N. subst fs2. rewrite content_write_other by congruence. auto. }
  destruct (for_each_write accf (class_file self) (GenClass._attributes self) fs2)
    as (Hc3 & Hr3 & Hf3). cbn zeta in Hc3, Hr3, Hf3.
  unfold bind at 1 in E.
  destruct (for_each (GenClass._attributes self) _ fs2) as [fs3 r3].
  cbn [fst snd] in Hc3, Hr3, Hf3. rewrite Hc2 in Hc3.
  destruct (rmap accf (GenClass._attributes self)) as [accs|e] eqn:Ea;
    cbn [rbind] in Hr3; subst r3.
  2:{ inversion E; subst fs'. split.
      - rewrite Hc3. now rewrite append_empty_r.
      - intros N. rewrite Hf3 by congruence. auto. }
  destruct (for_each_write metf (class_file self) (GenClass._methods self) fs3)
    as (Hc4 & _ & Hf4). cbn zeta in Hc4, Hf4.
  rewrite E in Hc4, Hf4. cbn [fst] in Hc4, Hf4. split.
  - rewrite Hc4, Hc3. now rewrite append_assoc.
  - intros N. rewrite Hf4, Hf3 by congruence. auto.
Qed.

Lemma computed_before_failure_app {A} (f : A -> result string)
    (l1 l2 : list A) (x : A) (ys : list string) (e : exn) :
  rmap f l1 = Ok ys -> f x = Raise e ->
  computed_before_failure f (l1 ++ x :: l2) = ys /\
  rmap f (l1 ++ x :: l2) = Raise e.
Proof.
  revert ys. induction l1 as [|a l1 IH]; intros ys H Hx; simpl in *.
  - injection H as <-. now rewrite Hx.
  - destruct (f a) as [y|]; [|discriminate]. cbn [rbind] in *.
    destruct (rmap f l1) as [r|]; [|discriminate]. cbn [rbind] in H.
    injection H as <-. destruct (IH r eq_refl Hx) as [-> ->]. auto.
Qed.

(** The run of [_gen_unit_tests] when the test text fails. *)
Lemma gen_unit_tests_failed (tpl : GenClass.TemplateStore)
    (self : GenClass.GenClass) (fs fs' : Fs.t) (r : result unit) (e : exn) :
  GenClass._gen_unit_tests tpl self fs = (fs', r) ->
  test_text tpl self = Raise e ->
  Fs.content (test_file self) fs' = "".
Proof.
  intros E Ht. unfold GenClass._gen_unit_tests in E. unfold test_text in Ht.
  fold (test_file self) in E.
  set (stubf := fun '(method_name, method_params) =>
                  GenClass._get_method_tests tpl self method_name method_params)
    in *.
  unfold bind at 1 in E.
  destruct (GenClass._create_folder_and_init_file
              (GenClass.PATH_GEN_FILES ++ "/tests_unittest") fs) as [fs0 r0] eqn:E0.
  assert (r0 = Ok tt) as ->.
  { pose proof (create_folder_run
                  (GenClass.PATH_GEN_FILES ++ "/tests_unittest") fs) as [H _].
    cbn zeta in H. now rewrite E0 in H. }
  unfold bind at 1 in E.
  destruct (GenClass._create_folder_and_init_file
              ((GenClass.PATH_GEN_FILES ++ "/tests_unittest") ++ "/assets") fs0)
    as [fs1 r1] eqn:E1.
  assert (r1 = Ok tt) as ->.
  { pose proof (create_folder_run
                  ((GenClass.PATH_GEN_FILES ++ "/tests_unittest") ++ "/assets")
                  fs0) as [H _].
    cbn zeta in H. now rewrite E1 in H. }
  unfold bind at 1 in E. unfold effect at 1 in E.
  unfold bind at 1 in E. unfold lift at 1 in E.
  destruct (rmap stubf (GenClass._methods self)) as [stubs|e1]; cbn [rbind] in Ht.
  2:{ inversion E; subst. apply content_open_same. }
  unfold bind at 1 in E. unfold lift at 1 in E. rewrite Ht in E.
  inversion E; subst. apply content_open_same.
Qed.

End MoreFiles.



(** X11: regeneration is not additive: after [_gen_class], returned or
    raised, the class file holds the header and the blocks rendered
    before the first failure and nothing of what it held before; two
    runs from different trees leave the same class file. *)
Theorem gen_class_overwrites (tpl : GenClass.TemplateStore)
    (self : GenClass.GenClass) (fs1 fs2 : Fs.t) :
  Fs.content (class_file self) (fst (GenClass._gen_class tpl self fs1)) =
    class_written tpl self /\
  Fs.content (class_file self) (fst (GenClass._gen_class tpl self fs1)) =
  Fs.content (class_file self) (fst (GenClass._gen_class tpl self fs2)).
Proof.
  destruct (GenClass._gen_class tpl self fs1) as [fa ra] eqn:Ea.
  destruct (GenClass._gen_class tpl self fs2) as [fb rb] eqn:Eb.
  apply gen_class_trace in Ea as [Ha _]. apply gen_class_trace in Eb as [Hb _].
  cbn [fst]. split; congruence.
Qed.

(** X12: when the header and every accessor render and the first method
    to fail comes after the methods [before], [_gen_class] raises that
    method's exception and leaves in the class file the header, all the
    accessor blocks and the blocks of [before], without the methods that
    follow. *)
Theorem gen_class_partial_output (tpl : GenClass.TemplateStore)
    (self : GenClass.GenClass) (fs : Fs.t) (header : string)
    (accessors blocks : list string)
    (before after : Dict.t string) (failing : string * string) (e : exn) :
  GenClass._get_class tpl self = Ok header ->
  Forall2 (fun a block => GenClass._get_accessors tpl (fst a) (snd a) = Ok block)
    (GenClass._attributes self) accessors ->
  GenClass._methods self = (before ++ failing :: after)%list ->
  Forall2 (fun m block =>
             GenClass._get_method tpl (fst m) (Py.split "," (snd m)) = Ok block)
    before blocks ->
  GenClass._get_method tpl (fst failing) (Py.split "," (snd failing)) = Raise e ->
  exists fs',
    GenClass._gen_class tpl self fs = (fs', Raise e) /\
    Fs.content (class_file self) fs' =
      header ++ Py.join "" accessors ++ Py.join "" blocks.
Proof.
  intros Hh Ha Hm Hb Hf.
  set (accf := fun '(attr_name, attr_type) =>
                 GenClass._get_accessors tpl attr_name attr_type).
  set (metf := fun '(method_name, method_params) =>
                 GenClass._get_method tpl method_name
                   (Py.split "," method_params)).
  assert (Ea : rmap accf (GenClass._attributes self) = Ok accessors).
  { apply rmap_Forall2. eapply Forall2_impl; [|exact Ha].
    intros [? ?] ? H. exact H. }
  assert (Eb : rmap metf before = Ok blocks).
  { apply rmap_Forall2. eapply Forall2_impl; [|exact Hb].
    intros [? ?] ? H. exact H. }
  assert (Ef : metf failing = Raise e) by (destruct failing; exact Hf).
  destruct (computed_before_failure_app metf before after failing blocks e Eb Ef)
    as [Hcomp Hraise].
  destruct (GenClass._gen_class tpl self fs) as [fs' r] eqn:E.
  pose proof (gen_class_run _ _ _ _ _ E) as (Hr & _ & _).
  apply gen_class_trace in E as [Hc _].
  exists fs'. split.
  - f_equal. rewrite Hr. unfold class_text. rewrite Hh. cbn [rbind].
    fold accf. rewrite Ea. cbn [rbind]. fold metf. rewrite Hm, Hraise.
    reflexivity.
  - rewrite Hc. unfold class_written. cbn zeta. rewrite Hh.
    fold accf metf. rewrite Ea, (computed_all _ _ _ Ea), Hm, Hcomp.
    reflexivity.
Qed.

Lemma gen_class_partial_output_witness :
  exists header acc_r area fs',
    GenClass._get_class Sample.templates
      (GenClass.make "disc" [("r", "float")]
         [("area", "return: float"); ("grow", "factor"); ("name", "return: str")]
         "") = Ok header /\
    GenClass._get_accessors Sample.templates "r" "float" = Ok acc_r /\
    GenClass._get_method Sample.templates "area" (Py.split "," "return: float")
      = Ok area /\
    GenClass._gen_class Sample.templates
      (GenClass.make "disc" [("r", "float")]
         [("area", "return: float"); ("grow", "factor"); ("name", "return: str")]
         "") [] = (fs', Raise AttributeError) /\
    Fs.content "./gen_files/disc.py" fs' = header ++ acc_r ++ area.
Proof.
  set (self := GenClass.make "disc" [("r", "float")]
         [("area", "return: float"); ("grow", "factor"); ("name", "return: str")]
         "").
  destruct (GenClass._get_class Sample.templates self) as [header|] eqn:Eh;
    [|discriminate].
  destruct (GenClass._get_accessors Sample.templates "r" "float")
    as [acc_r|] eqn:Er; [|discriminate].
  destruct (GenClass._get_method Sample.templates "area"
              (Py.split "," "return: float")) as [area|] eqn:Ea; [|discriminate].
  destruct (gen_class_partial_output Sample.templates self [] header
              [acc_r] [area] [("area", "return: float")]
              [("name", "return: str")] ("grow", "factor") AttributeError Eh)
    as (fs' & Hrun & Hc).
  - repeat constructor. exact Er.
  - reflexivity.
  - repeat constructor. exact Ea.
  - reflexivity.
  - exists header, acc_r, area, fs'. auto.
Defined.

(** X13: [_gen_class] touches the class file and the package marker of
    the output folder, and no other file, whether it returns or
    raises. *)
Theorem gen_class_touches_two_files (tpl : GenClass.TemplateStore)
    (self : GenClass.GenClass) (fs : Fs.t) (q : string) :
  q <> class_file self ->
  q <> GenClass.PATH_GEN_FILES ++ "/__init__.py" ->
  Fs.content q (fst (GenClass._gen_class tpl self fs)) = Fs.content q fs.
Proof.
  intros H1 H2. destruct (GenClass._gen_class tpl self fs) as [fs' r] eqn:E.
  apply gen_class_run in E as (_ & _ & Hf). now apply Hf.
Qed.

Lemma gen_class_touches_two_files_witness :
  "./gen_files/other.py" <> class_file Sample.shape /\
  "./gen_files/other.py" <> GenClass.PATH_GEN_FILES ++ "/__init__.py" /\
  Fs.content "./gen_files/other.py"
    (fst (GenClass._gen_class Sample.templates Sample.shape
            [("./gen_files/other.py", "kept")])) = "kept".
Proof.
  assert (N1 : "./gen_files/other.py" <> class_file Sample.shape) by discriminate.
  assert (N2 : "./gen_files/other.py" <> GenClass.PATH_GEN_FILES ++ "/__init__.py")
    by discriminate.
  split; [exact N1|]. split; [exact N2|].
  exact (gen_class_touches_two_files Sample.templates Sample.shape
           [("./gen_files/other.py", "kept")] _ N1 N2).
Defined.



(** X15: when the rendering of the test text fails, [_gen_unit_tests]
    raises its exception and leaves the test file created and empty: it
    is opened before anything is rendered. *)
Theorem gen_unit_tests_failure (tpl : GenClass.TemplateStore)
    (self : GenClass.GenClass) (fs : Fs.t) (e : exn) :
  test_text tpl self = Raise e ->
  snd (GenClass._gen_unit_tests tpl self fs) = Raise e /\
  Fs.content (test_file self) (fst (GenClass._gen_unit_tests tpl self fs)) = "".
Proof.
  intros Ht. destruct (GenClass._gen_unit_tests tpl self fs) as [fs' r] eqn:E.
  cbn [fst snd]. split.
  - apply gen_unit_tests_run in E as (Hr & _ & _). now rewrite Ht in Hr.
  - eapply gen_unit_tests_failed; eassumption.
Qed.

Lemma gen_unit_tests_failure_witness :
  test_text [] Sample.shape = Raise (FileNotFoundError "src/templates/methods_tests") /\
  snd (GenClass._gen_unit_tests [] Sample.shape
         [("./gen_files/tests_unittest/test_shape.py", "old tests")])
    = Raise (FileNotFoundError "src/templates/methods_tests") /\
  Fs.content "./gen_files/tests_unittest/test_shape.py"
    (fst (GenClass._gen_unit_tests [] Sample.shape
            [("./gen_files/tests_unittest/test_shape.py", "old tests")])) = "".
Proof.
  split; [reflexivity|].
  exact (gen_unit_tests_failure [] Sample.shape
           [("./gen_files/tests_unittest/test_shape.py", "old tests")] _ eq_refl).
Defined.

(* ================================================================= *)
(** ** Further properties: a whole request, and the driver *)

Section MoreRequests.

Import Py.



Lemma for_each_app {A} (body : A -> IO unit) (l1 l2 : list A) (fs : Fs.t) :
  for_each (l1 ++ l2) body fs =
  match for_each l1 body fs with
  | (fs1, Ok _) => for_each l2 body fs1
  | (fs1, Raise e) => (fs1, Raise e)
  end.
Proof.
  revert fs. induction l1 as [|x l1 IH]; intros fs; [reflexivity|].
  cbn [app for_each]. unfold bind.
  destruct (body x fs) as [fs0 [[]|e]]; [apply IH | reflexivity].
Qed.

End MoreRequests.

(** X16: when the rendering of the class text fails, the request raises
    its exception and the test file is as it was: the test tree is not
    reached. *)
Theorem class_failure_spares_tests (tpl : GenClass.TemplateStore)
    (name : string) (attrs methods : Dict.t string) (inherit : string)
    (fs : Fs.t) (e : exn) :
  let self := GenClass.make name attrs methods inherit in
  class_text tpl self = Raise e ->
  snd (GenClass.__init__ tpl name attrs methods inherit fs) = Raise e /\
  Fs.content (test_file self)
    (fst (GenClass.__init__ tpl name attrs methods inherit fs)) =
  Fs.content (test_file self) fs.
Proof.
  intros self Hc. unfold GenClass.__init__. fold self. unfold bind.
  destruct (GenClass._gen_class tpl self fs) as [fs1 r1] eqn:E.
  apply gen_class_run in E as (Hr & _ & Hf). rewrite Hc in Hr.
  cbn [rbind] in Hr. subst r1. cbn [fst snd]. split; [reflexivity|].
  destruct (test_file_not_class_file self) as [N1 N2]. now apply Hf.
Qed.

Lemma class_failure_spares_tests_witness :
  class_text Sample.templates
    (GenClass.make "disc" [] [("grow", "factor")] "") = Raise AttributeError /\
  snd (GenClass.__init__ Sample.templates "disc" [] [("grow", "factor")] ""
         [("./gen_files/tests_unittest/test_disc.py", "old tests")])
    = Raise AttributeError /\
  Fs.content "./gen_files/tests_unittest/test_disc.py"
    (fst (GenClass.__init__ Sample.templates "disc" [] [("grow", "factor")] ""
            [("./gen_files/tests_unittest/test_disc.py", "old tests")]))
    = "old tests".
Proof.
  split; [reflexivity|].
  exact (class_failure_spares_tests Sample.templates "disc" []
           [("grow", "factor")] ""
           [("./gen_files/tests_unittest/test_disc.py", "old tests")]
           AttributeError eq_refl).
Defined.



(** X18: the driver stops at the first entry whose request raises: it
    reports that exception, and the files are those this entry left,
    whatever entries follow it. *)
Theorem main_stops_at_first_failure (tpl : GenClass.TemplateStore)
    (done : list Main.entry) (name : string) (attrs methods : Dict.t string)
    (rest : list Main.entry) (fs fs1 fs2 : Fs.t) (e : exn) :
  Main.process tpl done fs = (fs1, Ok tt) ->
  GenClass.__init__ tpl name attrs methods "" fs1 = (fs2, Raise e) ->
  Main.main tpl (done ++ (name, attrs, methods) :: rest) fs = (fs2, Some e).
Proof.
  intros Hdone Hfail. unfold Main.main, Main.process in *.
  rewrite for_each_app, Hdone. cbn [for_each]. unfold bind.
  now rewrite Hfail.
Qed.

Lemma main_stops_at_first_failure_witness :
  exists fs2,
    Main.main Sample.templates
      [("shape", [("x", "int")], [("area", "return: float")]);
       ("disc", [], [("grow", "factor")]);
       ("late", [], [])] [] = (fs2, Some AttributeError) /\
    Fs.content "./gen_files/late.py" fs2 = "" /\
    Py.contains "class Shape" (Fs.content "./gen_files/shape.py" fs2) = true.
Proof.
  set (fs1 := fst (Main.process Sample.templates
                     [("shape", [("x", "int")], [("area", "return: float")])] [])).
  set (fs2 := fst (GenClass.__init__ Sample.templates "disc" []
                     [("grow", "factor")] "" fs1)).
  assert (E1 : Main.process Sample.templates
                 [("shape", [("x", "int")], [("area", "return: float")])] []
               = (fs1, Ok tt)) by (vm_compute; reflexivity).
  assert (E2 : GenClass.__init__ Sample.templates "disc" []
                 [("grow", "factor")] "" fs1 = (fs2, Raise AttributeError))
    by (vm_compute; reflexivity).
  exists fs2. split.
  - exact (main_stops_at_first_failure Sample.templates
             [("shape", [("x", "int")], [("area", "return: float")])]
             "disc" [] [("grow", "factor")] [("late", [], [])]
             [] fs1 fs2 AttributeError E1 E2).
  - split; vm_compute; reflexivity.
Defined.

Section MoreLines.

Import Py.

Lemma count_char_app (c : ascii) (a b : string) :
  count_char c (a ++ b) = count_char c a + count_char c b.
Proof.
  induction a as [|d a IH]; simpl; [reflexivity|]. rewrite IH. lia.
Qed.

Lemma count_char_join_empty (c : ascii) (l : list string) (k : nat) :
  Forall (fun x => count_char c x = k) l ->
  count_char c (join "" l) = List.length l * k.
Proof.
  induction 1 as [|x l Hx _ IH]; [reflexivity|].
  rewrite join_empty_cons, count_char_app, Hx, IH. simpl. lia.
Qed.

Lemma count_char_join_lines (l : list string) :
  Forall (fun x => count_char "010" x = 0) l ->
  count_char "010" (join GenClass.nl l) = List.length l - 1.
Proof.
  induction 1 as [|x l Hx Hl IH]; [reflexivity|].
  cbn [join]. destruct l as [|y l]; [simpl; lia|].
  rewrite !count_char_app, Hx, IH. simpl. lia.
Qed.

End MoreLines.

(** X19: when no attribute name or type holds a line feed, the
    constructor parameters take one line per attribute, each opened by
    its own line feed, and the documented lines and the assignments are
    one line per attribute, separated by line feeds; without attributes
    the three strings are empty. *)
Theorem attributes_strings_lines (self : GenClass.GenClass) :
  Forall (fun a => count_char "010" (fst a) = 0 /\ count_char "010" (snd a) = 0)
    (GenClass._attributes self) ->
  let '(doc, params, init) := GenClass._get_attributes_strings self in
  count_char "010" params = List.length (GenClass._attributes self) /\
  count_char "010" doc = List.length (GenClass._attributes self) - 1 /\
  count_char "010" init = List.length (GenClass._attributes self) - 1 /\
  (GenClass._attributes self = [] -> doc = "" /\ params = "" /\ init = "").
Proof.
  intros H. unfold GenClass._get_attributes_strings.
  split; [|split; [|split]].
  - rewrite (count_char_join_empty "010" _ 1); [rewrite length_map; lia|].
    rewrite Forall_map. eapply Forall_impl; [|exact H].
    intros [n t] [Hn Ht]. cbn [fst snd] in *.
    rewrite !count_char_app, Hn, Ht. reflexivity.
  - rewrite count_char_join_lines; [now rewrite length_map|].
    rewrite Forall_map. eapply Forall_impl; [|exact H].
    intros [n t] [Hn Ht]. cbn [fst snd] in *.
    rewrite !count_char_app, Hn, Ht. reflexivity.
  - rewrite count_char_join_lines; [now rewrite length_map|].
    rewrite Forall_map. eapply Forall_impl; [|exact H].
    intros [n t] [Hn Ht]. cbn [fst snd] in *.
    rewrite !count_char_app, Hn, Ht. reflexivity.
  - intros ->. auto.
Qed.

Lemma attributes_strings_lines_witness :
  let '(doc, params, init) := GenClass._get_attributes_strings Sample.shape in
  count_char "010" params = 2 /\ count_char "010" doc = 1 /\
  count_char "010" init = 1.
Proof.
  pose proof (attributes_strings_lines Sample.shape) as H.
  destruct (GenClass._get_attributes_strings Sample.shape) as [[doc params] init].
  destruct H as (H1 & H2 & H3 & _); [repeat constructor|].
  auto.
Defined.

(** X20: a request touches five files at most: the class file, the test
    file and the package markers of the output folder, of the test
    folder and of its assets folder; every other file is as it was,
    whether the request returns or raises. *)
Theorem request_touches_five_files (tpl : GenClass.TemplateStore)
    (name : string) (attrs methods : Dict.t string) (inherit : string)
    (fs : Fs.t) (q : string) :
  let self := GenClass.make name attrs methods inherit in
  q <> class_file self -> q <> test_file self ->
  q <> "./gen_files/__init__.py" ->
  q <> "./gen_files/tests_unittest/__init__.py" ->
  q <> "./gen_files/tests_unittest/assets/__init__.py" ->
  Fs.content q (fst (GenClass.__init__ tpl name attrs methods inherit fs))
    = Fs.content q fs.
Proof.
  intros self N1 N2 N3 N4 N5. unfold GenClass.__init__. fold self.
  unfold bind.
  destruct (GenClass._gen_class tpl self fs) as [fs1 r1] eqn:E1.
  apply gen_class_run in E1 as (_ & _ & Hf1).
  destruct r1 as [[]|e]; cbn [fst].
  - destruct (GenClass._gen_unit_tests tpl self fs1) as [fs2 r2] eqn:E2.
    apply gen_unit_tests_run in E2 as (_ & _ & Hf2).
    cbn [fst]. rewrite Hf2 by assumption. now apply Hf1.
  - now apply Hf1.
Qed.

Lemma request_touches_five_files_witness :
  Fs.content "./gen_files/kept.py"
    (fst (GenClass.__init__ Sample.templates "shape" [("x", "int")]
            [("area", "return: float")] "" [("./gen_files/kept.py", "mine")]))
  = "mine".
Proof.
  apply (request_touches_five_files Sample.templates "shape" [("x", "int")]
           [("area", "return: float")] "" [("./gen_files/kept.py", "mine")]);
    discriminate.
Defined.
